(** * nmap2docx-ng: extraction of host records from a scan report and
      their rendering as document tables.

    The development follows [nmap2docx-ng.py].  Python values are embedded
    as follows.
    - [str] is [string]; a character is a code point below 256.
    - the result of [Element.get] is [option string] ([None] for an absent
      attribute), and so is every dictionary field filled from it.
    - an element of the lxml tree is a tag, its attributes and its child
      elements (comment and processing-instruction nodes never match a tag
      path and are left out); its attribute values are XML text, as the
      parser only builds such trees.
    - a statement that may raise returns a [result]. *)

From Stdlib Require Import String Ascii List Bool Arith Lia.
Import ListNotations.
Open Scope string_scope.

(** ** Exceptions *)

Inductive exn : Type :=
| AttributeError   (* attribute access on None *)
| TypeError        (* None where a str is iterated *)
| IndexError       (* cell index outside the row *)
| XMLSyntaxError   (* lxml could not parse the file *)
| OSError.         (* the output file could not be written *)

Inductive result (A : Type) : Type :=
| Ok (a : A)
| Raise (e : exn).
Arguments Ok {A} a.
Arguments Raise {A} e.

Definition bind {A B} (m : result A) (k : A -> result B) : result B :=
  match m with
  | Ok a => k a
  | Raise e => Raise e
  end.

Notation "x <- m ;; k" := (bind m (fun x => k))
  (at level 61, m at next level, right associativity).

(** A [for] loop whose body updates the loop state and may raise. *)
Fixpoint for_each {A S} (body : S -> A -> result S) (l : list A) (s : S)
  : result S :=
  match l with
  | [] => Ok s
  | x :: l' => s' <- body s x ;; for_each body l' s'
  end.

(** The list a loop of [append]s builds, as one traversal. *)
Fixpoint mapM {A B} (f : A -> result B) (l : list A) : result (list B) :=
  match l with
  | [] => Ok []
  | x :: l' => y <- f x ;; ys <- mapM f l' ;; Ok (y :: ys)
  end.

(** ** Python [str] primitives *)

Module Py.

(** [str.isspace] on one character, for code points below 256. *)
Definition isspace (c : ascii) : bool :=
  let n := nat_of_ascii c in
  (((9 <=? n) && (n <=? 13)) || ((28 <=? n) && (n <=? 32))
   || (n =? 133) || (n =? 160))%nat.

Definition is_char (d : ascii) (c : ascii) : bool := Ascii.eqb c d.

Fixpoint lstrip (p : ascii -> bool) (s : string) : string :=
  match s with
  | EmptyString => EmptyString
  | String c s' => if p c then lstrip p s' else s
  end.

Fixpoint rstrip (p : ascii -> bool) (s : string) : string :=
  match s with
  | EmptyString => EmptyString
  | String c s' =>
      match rstrip p s' with
      | EmptyString => if p c then EmptyString else String c EmptyString
      | r => String c r
      end
  end.

(** [s.strip()] with [p := isspace], [s.strip(',')] with
    [p := is_char ","]. *)
Definition strip (p : ascii -> bool) (s : string) : string :=
  rstrip p (lstrip p s).

(** [str.upper] on ASCII letters; the source applies it only to a value
    that already compared equal to ['ipv4'] or ['ipv6']. *)
Definition upper_char (c : ascii) : ascii :=
  let n := nat_of_ascii c in
  if ((97 <=? n) && (n <=? 122))%nat then ascii_of_nat (n - 32) else c.

Fixpoint upper (s : string) : string :=
  match s with
  | EmptyString => EmptyString
  | String c s' => String (upper_char c) (upper s')
  end.

(** [needle in hay]. *)
Fixpoint contains (needle hay : string) : bool :=
  prefix needle hay ||
  match hay with
  | EmptyString => false
  | String _ hay' => contains needle hay'
  end.

(** [s.endswith(suffix)]. *)
Fixpoint endswith (s suffix : string) : bool :=
  String.eqb s suffix ||
  match s with
  | EmptyString => false
  | String _ s' => endswith s' suffix
  end.

(** [sep.join(l)]. *)
Fixpoint join (sep : string) (l : list string) : string :=
  match l with
  | [] => ""
  | [x] => x
  | x :: l' => x ++ sep ++ join sep l'
  end.

(** What an f-string field shows for a value that may be [None]. *)
Definition fmt (v : option string) : string :=
  match v with
  | Some s => s
  | None => "None"
  end.

(** Truth value of an optional string argument: [None] and [''] are
    false. *)
Definition truthy (v : option string) : bool :=
  match v with
  | Some EmptyString | None => false
  | Some _ => true
  end.

(** Text-mode reading translates "\r\n" and a lone "\r" to "\n". *)
Definition CR : ascii := ascii_of_nat 13.
Definition LF : ascii := ascii_of_nat 10.

Fixpoint universal_newlines (s : string) : string :=
  match s with
  | EmptyString => EmptyString
  | String c s' =>
      if Ascii.eqb c CR then
        match s' with
        | String d s'' =>
            if Ascii.eqb d LF then String LF (universal_newlines s'')
            else String LF (universal_newlines s')
        | EmptyString => String LF EmptyString
        end
      else String c (universal_newlines s')
  end.

(** [file.readline()]: the line up to and including its newline, and
    what is left of the file. *)
Fixpoint readline (s : string) : string * string :=
  match s with
  | EmptyString => (EmptyString, EmptyString)
  | String c s' =>
      if Ascii.eqb c LF then (String c EmptyString, s')
      else let '(l, rest) := readline s' in (String c l, rest)
  end.

End Py.

(** ** The parsed XML tree (lxml) *)

#[warnings="-register-all"]
Inductive element : Type :=
| Element (tag : string) (attrib : list (string * string))
          (children : list element).

Definition tag (e : element) : string :=
  match e with Element t _ _ => t end.
Definition attrib (e : element) : list (string * string) :=
  match e with Element _ a _ => a end.
Definition children (e : element) : list element :=
  match e with Element _ _ c => c end.

(** [e.get(key)] *)
Fixpoint lookup (key : string) (a : list (string * string)) : option string :=
  match a with
  | [] => None
  | (k, v) :: a' => if String.eqb k key then Some v else lookup key a'
  end.

Definition get (e : element) (key : string) : option string :=
  lookup key (attrib e).

(** [e.findall(name)]: the children with that tag, in document order. *)
Definition findall (e : element) (name : string) : list element :=
  filter (fun c => String.eqb (tag c) name) (children e).

(** [e.find(name)]: the first such child. *)
Definition find (e : element) (name : string) : option element :=
  hd_error (findall e name).

(** All descendants of [e] in document order. *)
Fixpoint descendants (e : element) : list element :=
  match e with
  | Element _ _ cs => flat_map (fun c => c :: descendants c) cs
  end.

(** [e.findall('.//' + name)] *)
Definition findall_descendants (e : element) (name : string) : list element :=
  filter (fun c => String.eqb (tag c) name) (descendants e).

(** ** Host records *)

Record port_data : Type := {
  portid : option string;
  protocol : option string;
  state : option string;
  service : option string;
  product : option string;
  version : option string
}.

Record extraport_data : Type := {
  extra_state : option string;
  extra_count : option string
}.

Record host_data : Type := {
  address : string;
  hostnames : string;
  ports : list port_data;
  extraports : list extraport_data
}.

(** ** parse_nmap_xml *)

(** The body of the address loop: [host_data['address'] += ...] under the
    test on [addr_type]. *)
Definition is_ip (addr_type : option string) : bool :=
  match addr_type with
  | Some t => String.eqb t "ipv4" || String.eqb t "ipv6"
  | None => false
  end.

Definition address_step (acc : string) (a : element) : string :=
  let addr_type := get a "addrtype" in
  let addr := get a "addr" in
  match addr_type with
  | Some t =>
      if String.eqb t "ipv4" || String.eqb t "ipv6"
      then acc ++ Py.fmt addr ++ " (" ++ Py.upper t ++ "), "
      else acc
  | None => acc
  end.

Definition host_address (host : element) : string :=
  let acc := fold_left address_step (findall host "address") "" in
  Py.strip (Py.is_char ",") (Py.strip Py.isspace acc).

Definition hostname_text (hn : element) : string :=
  Py.fmt (get hn "name") ++ " (" ++ Py.fmt (get hn "type") ++ ")".

Definition host_hostnames (host : element) : string :=
  match find host "hostnames" with
  | Some hostnames => Py.join ", " (map hostname_text (findall hostnames "hostname"))
  | None => ""
  end.

(** [port.find('service').get(key) if port.find('service') is not None
    else ''] *)
Definition service_field (port : element) (key : string) : option string :=
  match find port "service" with
  | Some s => get s key
  | None => Some ""
  end.

(** [port.find('state').get('state')] raises when there is no state
    child. *)
Definition port_state (port : element) : result (option string) :=
  match find port "state" with
  | Some st => Ok (get st "state")
  | None => Raise AttributeError
  end.

Definition parse_port (port : element) : result port_data :=
  st <- port_state port ;;
  Ok {| portid := get port "portid";
        protocol := get port "protocol";
        state := st;
        service := service_field port "name";
        product := service_field port "product";
        version := service_field port "version" |}.

Definition parse_extraports (ports_element : element) : list extraport_data :=
  match find ports_element "extraports" with
  | Some extraports =>
      [ {| extra_state := get extraports "state";
           extra_count := get extraports "count" |} ]
  | None => []
  end.

Definition parse_host (host : element) : result host_data :=
  let address := host_address host in
  let hostnames := host_hostnames host in
  match find host "ports" with
  | Some ports_element =>
      ports <- for_each (fun acc port =>
                           port_data <- parse_port port ;;
                           Ok (acc ++ [port_data])%list)
                        (findall ports_element "port") [] ;;
      Ok {| address := address; hostnames := hostnames;
            ports := ports; extraports := parse_extraports ports_element |}
  | None =>
      Ok {| address := address; hostnames := hostnames;
            ports := []; extraports := [] |}
  end.

(** [root] is what [ET.parse(path).getroot()] returned. *)
Definition parse_nmap_xml (root : element) : result (list host_data) :=
  for_each (fun hosts_data host =>
              host_data <- parse_host host ;;
              Ok (hosts_data ++ [host_data])%list)
           (findall_descendants root "host") [].

(** ** The document (python-docx) *)

Record run : Type := {
  run_text : string;
  font_color : option string;   (* run.font.color.rgb *)
  font_size : option nat;       (* run.font.size, in points *)
  font_name : option string     (* run.font.name *)
}.

Definition paragraph : Type := list run.

(** A table cell: its grid span, its paragraphs and the fills of the
    shading elements appended to its properties. *)
Record cell : Type := {
  grid_span : nat;
  paragraphs : list paragraph;
  shd : list string
}.

Definition row : Type := list cell.

Record table : Type := {
  cols : nat;
  style : option string;
  rows : list row
}.

Inductive block : Type :=
| Table (t : table)
| Paragraph (p : paragraph).

Definition document : Type := list block.

(** [document.add_table(rows=0, cols=n)] followed by the style
    assignment. *)
Definition add_table (n : nat) (st : string) : table :=
  {| cols := n; style := Some st; rows := [] |}.

(** A cell as [add_row] creates it: one empty paragraph. *)
Definition empty_cell : cell :=
  {| grid_span := 1; paragraphs := [[]]; shd := [] |}.

(** [table.add_row()] gives a row of [cols] empty cells; the row is
    entered in the table by [push_row] once the statements that fill it
    have run. *)
Definition add_row (t : table) : row := repeat empty_cell (cols t).

Definition push_row (t : table) (r : row) : table :=
  {| cols := cols t; style := style t; rows := rows t ++ [r] |}.

(** [row.cells[i] ... ]: the statement [f] applied to the cell that covers
    grid column [i]. *)
Fixpoint at_cell (i : nat) (f : cell -> result cell) (r : row) : result row :=
  match r with
  | [] => Raise IndexError
  | c :: r' =>
      if (i <? grid_span c)%nat
      then c' <- f c ;; Ok (c' :: r')
      else r'' <- at_cell (i - grid_span c) f r' ;; Ok (c :: r'')
  end.

(** [for cell in row.cells]: a cell is met once per grid column it
    covers. *)
Definition for_cells (f : cell -> cell) (r : row) : row :=
  map (fun c => Nat.iter (grid_span c) f c) r.

Definition row_width (r : row) : nat := list_sum (map grid_span r).

(** [row.cells[0].merge(row.cells[5])] on the row [add_row] just gave:
    the cells of grid columns 0 to 5, all empty, become one cell. *)
Definition merge (r : row) : result row :=
  if (5 <? row_width (firstn 6 r))%nat
  then Ok ({| grid_span := row_width (firstn 6 r);
              paragraphs := [[]]; shd := [] |} :: skipn 6 r)
  else Raise IndexError.

Definition new_run (s : string) : run :=
  {| run_text := s; font_color := None; font_size := None;
     font_name := None |}.

(** [cell.text = v]: the content becomes one paragraph with one run;
    the run text is built by iterating over [v], which raises on None.
    [v] is XML text here, as the attribute values of a parsed tree and the
    literals of the source are; the run text is the text assigned. *)
Definition set_text (v : option string) (c : cell) : result cell :=
  match v with
  | Some s => Ok {| grid_span := grid_span c;
                    paragraphs := [[new_run s]];
                    shd := shd c |}
  | None => Raise TypeError
  end.

(** [cell.text] read back. *)
Definition paragraph_text (p : paragraph) : string :=
  String.concat "" (map run_text p).

Definition cell_text (c : cell) : string :=
  String.concat (String Py.LF "") (map paragraph_text (paragraphs c)).

Definition cell_runs (c : cell) : list run := List.concat (paragraphs c).

Definition set_color (rgb : string) (r : run) : run :=
  {| run_text := run_text r; font_color := Some rgb;
     font_size := font_size r; font_name := font_name r |}.

(** The source calls it with the fills E94347, EAF1DD and F2DBDB and the
    text color FFFFFF or none: for these the markup of the shading element
    parses and [RGBColor.from_string] gives the color as it is written. *)
Definition set_cell_background_color
           (c : cell) (color : string) (text_color : option string) : cell :=
  {| grid_span := grid_span c;
     paragraphs :=
       match text_color with
       | Some rgb =>
           if Py.truthy text_color
           then map (map (set_color rgb)) (paragraphs c)
           else paragraphs c
       | None => paragraphs c
       end;
     shd := shd c ++ [color] |}.

Definition set_font (r : run) : run :=
  {| run_text := run_text r; font_color := font_color r;
     font_size := Some 9; font_name := Some "Calibri" |}.

Definition set_cell_font (c : cell) : cell :=
  {| grid_span := grid_span c;
     paragraphs := map (map set_font) (paragraphs c);
     shd := shd c |}.

(** ** create_final_host_table *)

Definition headers : list string :=
  ["Port"; "Protocol"; "State"; "Service"; "Product"; "Version"].

Definition enumerate {A} (l : list A) : list (nat * A) :=
  combine (seq 0 (length l)) l.

(** A header band: merged row, label, accent fill, white text. *)
Definition band_row (t : table) (label : string) : result row :=
  let row := add_row t in
  row <- merge row ;;
  row <- at_cell 0 (set_text (Some label)) row ;;
  at_cell 0 (fun c => Ok (set_cell_background_color c "E94347" (Some "FFFFFF")))
          row.

(** A merged row that only carries a text. *)
Definition value_row (t : table) (text : string) : result row :=
  let row := add_row t in
  row <- merge row ;;
  at_cell 0 (set_text (Some text)) row.

Definition titles_row (t : table) : result row :=
  for_each (fun row '(i, title) =>
              row <- at_cell i (set_text (Some title)) row ;;
              at_cell i (fun c => Ok (set_cell_background_color
                                        c "E94347" (Some "FFFFFF"))) row)
           (enumerate headers) (add_row t).

(** [str(v)] when [v is not None], else ['']. *)
Definition str_or_empty (v : option string) : option string :=
  match v with
  | Some s => Some s
  | None => Some ""
  end.

Definition state_color (st : option string) : string :=
  match st with
  | Some s => if String.eqb s "open" then "EAF1DD" else "F2DBDB"
  | None => "F2DBDB"
  end.

Definition port_row (t : table) (port : port_data) : result row :=
  let row := add_row t in
  row <- at_cell 0 (set_text (portid port)) row ;;
  row <- at_cell 1 (set_text (protocol port)) row ;;
  row <- at_cell 2 (set_text (state port)) row ;;
  row <- at_cell 3 (set_text (service port)) row ;;
  row <- at_cell 4 (set_text (str_or_empty (product port))) row ;;
  row <- at_cell 5 (set_text (str_or_empty (version port))) row ;;
  let color := state_color (state port) in
  Ok (for_cells (fun c => set_cell_background_color c color None) row).

Definition extraport_row (t : table) (extraport : extraport_data) : result row :=
  let row := add_row t in
  row <- merge row ;;
  at_cell 0 (set_text (Some (Py.fmt (extra_count extraport)
                             ++ " ports are in state: "
                             ++ Py.fmt (extra_state extraport)))) row.

(** The closing loop over all rows and cells. *)
Definition set_fonts (t : table) : table :=
  {| cols := cols t; style := style t;
     rows := map (for_cells set_cell_font) (rows t) |}.

Definition create_final_host_table (doc : document) (host : host_data)
  : result document :=
  let table := add_table 6 "Table Grid" in
  row <- band_row table "Address" ;;
  let table := push_row table row in
  row <- value_row table (address host) ;;
  let table := push_row table row in
  row <- band_row table "Hostnames" ;;
  let table := push_row table row in
  row <- value_row table (hostnames host) ;;
  let table := push_row table row in
  row <- titles_row table ;;
  let table := push_row table row in
  table <- for_each (fun table port =>
                       row <- port_row table port ;;
                       Ok (push_row table row))
                    (ports host) table ;;
  table <- for_each (fun table extraport =>
                       row <- extraport_row table extraport ;;
                       Ok (push_row table row))
                    (extraports host) table ;;
  let table := set_fonts table in
  Ok (doc ++ [Table table; Paragraph []])%list.

(** ** check_xml_file and the main script *)

(** The input file as [open(path, 'r')] finds it: its decoded text, or
    the exception raised on opening or reading it. *)
Inductive input_file : Type :=
| Contents (text : string)
| Unreadable (message : string).

Definition xml_declaration : string :=
  Eval cbv in
    "<?xml version=" ++ String (ascii_of_nat 34) "1.0"
    ++ String (ascii_of_nat 34) " encoding="
    ++ String (ascii_of_nat 34) "UTF-8" ++ String (ascii_of_nat 34) "?>".

Definition doctype : string := "<!DOCTYPE nmaprun>".

Definition first_line (text : string) : string :=
  fst (Py.readline (Py.universal_newlines text)).

Definition second_line (text : string) : string :=
  fst (Py.readline (snd (Py.readline (Py.universal_newlines text)))).

(** What [check_xml_file] prints, and what it returns. *)
Definition check_xml_file (file : input_file) : list string * bool :=
  match file with
  | Contents text =>
      if Py.contains xml_declaration (first_line text)
         && Py.contains doctype (second_line text)
      then ([], true)
      else ([], false)
  | Unreadable e => (["Error reading file: " ++ e], false)
  end.

Definition diagnostic : list string :=
  ["Invalid XML file.";
   "Please generate a valid Nmap file with a command like:";
   "sudo nmap -Pn -sC -sV -oX targets -iL targets.txt"].

(** How the process ends: [exit(code)] or falling off the end of the
    script (code 0), or an exception nobody caught. *)
Inductive termination : Type :=
| Exit (code : nat)
| Uncaught (e : exn).

Record outcome : Type := {
  stdout : list string;
  status : termination;
  saved : option (string * document)  (* path and content of [doc.save] *)
}.

(** [output_file += '.docx'] unless it ends with it. *)
Definition output_name (output_file : string) : string :=
  if Py.endswith output_file ".docx" then output_file
  else output_file ++ ".docx".

Section Main.

(** [ET.parse(path).getroot()]: the tree lxml builds from the input
    file, or the exception it raises. *)
Variable ET_parse : input_file -> result element.

(** [doc.save(path)]: the document is written, or the exception of the
    write is raised. *)
Variable doc_save : string -> document -> result unit.

(** From [parse_nmap_xml(input_file)] to the document ready to be
    saved. *)
Definition build_document (file : input_file) : result document :=
  root <- ET_parse file ;;
  hosts_data <- parse_nmap_xml root ;;
  for_each create_final_host_table hosts_data [].

Definition main (file : input_file) (output_file : string) : outcome :=
  let '(printed, valid) := check_xml_file file in
  if negb valid then
    {| stdout := printed ++ diagnostic; status := Exit 1; saved := None |}
  else
    match build_document file with
    | Ok doc =>
        let output_file := output_name output_file in
        match doc_save output_file doc with
        | Ok _ =>
            {| stdout := printed; status := Exit 0;
               saved := Some (output_file, doc) |}
        | Raise e =>
            {| stdout := printed; status := Uncaught e; saved := None |}
        end
    | Raise e =>
        {| stdout := printed; status := Uncaught e; saved := None |}
    end.

End Main.

(** The host records of a tree rendered into a fresh document. *)
Definition convert (root : element) : result document :=
  hosts_data <- parse_nmap_xml root ;;
  for_each create_final_host_table hosts_data [].

(** Reading a document back. *)
Fixpoint tables (doc : document) : list table :=
  match doc with
  | [] => []
  | Table t :: doc' => t :: tables doc'
  | Paragraph _ :: doc' => tables doc'
  end.

(** ** Reading the extractor's input

    The elements the extractor visits, named for the statements about
    them. *)

(** The address children that pass the test on [addrtype]. *)
Definition ip_addresses (host : element) : list element :=
  filter (fun a => is_ip (get a "addrtype")) (findall host "address").

(** The text one such child contributes. *)
Definition address_entry (a : element) : string :=
  Py.fmt (get a "addr") ++ " (" ++ Py.upper (Py.fmt (get a "addrtype")) ++ ")".


(** The port children of the ports element, if there is one. *)
Definition host_port_elements (host : element) : list element :=
  match find host "ports" with
  | Some ports_element => findall ports_element "port"
  | None => []
  end.

Definition cat (l : list string) : string := fold_right append "" l.

(** The text ends with a closing parenthesis. *)
Definition closes (e : string) : Prop := exists k, e = k ++ ")".

(** The code points below 256 that [str.strip()] removes. *)
Definition whitespace_codes : list nat :=
  [9; 10; 11; 12; 13; 28; 29; 30; 31; 32; 133; 160].

Definition blank (c : ascii) : Prop := In (nat_of_ascii c) whitespace_codes.

Definition comma (c : ascii) : Prop := nat_of_ascii c = 44.

(** Every character of the text satisfies [P]; the text begins with a
    character that satisfies [P]. *)
Fixpoint every (P : ascii -> Prop) (s : string) : Prop :=
  match s with
  | EmptyString => True
  | String c s' => P c /\ every P s'
  end.

Definition begins (P : ascii -> Prop) (s : string) : Prop :=
  match s with
  | EmptyString => False
  | String c _ => P c
  end.

(** The entries with a comma and a space between them. *)
Definition comma_joined (l : list string) : string :=
  match l with
  | [] => ""
  | e :: rest => e ++ cat (map (fun x => ", " ++ x) rest)
  end.

(** ** Reading a rendered table *)

(** A cell holding one run. *)
Definition text_cell (span : nat) (text : string) (rgb : option string)
           (size : option nat) (name : option string) (fills : list string)
  : cell :=
  {| grid_span := span;
     paragraphs := [[ {| run_text := text; font_color := rgb;
                         font_size := size; font_name := name |} ]];
     shd := fills |}.

(** The cell as the statements of a row leave it, and as the closing font
    loop leaves it. *)
Definition filled_cell (span : nat) (text : string) (rgb : option string)
           (fills : list string) : cell :=
  text_cell span text rgb None None fills.

Definition final_cell (span : nat) (text : string) (rgb : option string)
           (fills : list string) : cell :=
  text_cell span text rgb (Some 9) (Some "Calibri") fills.

Definition table6 : table := add_table 6 "Table Grid".

(** The five rows every table starts with, before the font loop. *)
Definition head_rows (host : host_data) : list row :=
  [ [filled_cell 6 "Address" (Some "FFFFFF") ["E94347"]];
    [filled_cell 6 (address host) None []];
    [filled_cell 6 "Hostnames" (Some "FFFFFF") ["E94347"]];
    [filled_cell 6 (hostnames host) None []];
    map (fun title => filled_cell 1 title (Some "FFFFFF") ["E94347"]) headers ].

Definition extraport_text (extraport : extraport_data) : string :=
  Py.fmt (extra_count extraport) ++ " ports are in state: "
  ++ Py.fmt (extra_state extraport).

(** The text color of every run of a cell is [rgb]. *)
Definition runs_colored (rgb : option string) (c : cell) : Prop :=
  cell_runs c <> [] /\ Forall (fun r => font_color r = rgb) (cell_runs c).

(** A port row shows a port element: six cells of span one with the
    portid and protocol of the port, the state of its state child, and the
    name, product and version of its service child (product and version
    empty when the attribute is absent, all three empty without a service
    child), all filled with the color that goes with the state. *)
Definition shows_port (port : element) (r : row) : Prop :=
  exists st c0 c1 c2 c3 c4 c5,
    find port "state" = Some st
    /\ r = [c0; c1; c2; c3; c4; c5]
    /\ get port "portid" = Some (cell_text c0)
    /\ get port "protocol" = Some (cell_text c1)
    /\ get st "state" = Some (cell_text c2)
    /\ match find port "service" with
       | Some s =>
           get s "name" = Some (cell_text c3)
           /\ cell_text c4 = match get s "product" with
                             | Some v => v
                             | None => ""
                             end
           /\ cell_text c5 = match get s "version" with
                             | Some v => v
                             | None => ""
                             end
       | None => cell_text c3 = "" /\ cell_text c4 = "" /\ cell_text c5 = ""
       end
    /\ Forall (fun c => grid_span c = 1
                        /\ shd c = [if String.eqb (cell_text c2) "open"
                                    then "EAF1DD" else "F2DBDB"])
              r.

(** An extraports row: one cell over the six columns, with the summary
    text and no fill. *)
Definition shows_extraport (extraport : extraport_data) (r : row) : Prop :=
  exists c, r = [c] /\ grid_span c = 6 /\ shd c = []
            /\ cell_text c = extraport_text extraport.

(** A port element the renderer can show: the attributes whose value is
    written to a cell as it is are present. *)
Definition renderable_port (port : element) : Prop :=
  (exists st, find port "state" = Some st /\ get st "state" <> None)
  /\ get port "portid" <> None
  /\ get port "protocol" <> None
  /\ service_field port "name" <> None.

(** The five leading rows as the font loop leaves them. *)
Definition final_head_rows (host : host_data) : list row :=
  [ [final_cell 6 "Address" (Some "FFFFFF") ["E94347"]];
    [final_cell 6 (address host) None []];
    [final_cell 6 "Hostnames" (Some "FFFFFF") ["E94347"]];
    [final_cell 6 (hostnames host) None []];
    map (fun title => final_cell 1 title (Some "FFFFFF") ["E94347"]) headers ].

(** ** Namespace declarations for the shading element *)

Definition nsmap : list (string * string) :=
  [("w", "http://schemas.openxmlformats.org/wordprocessingml/2006/main")].

Definition dquote : string := String (ascii_of_nat 34) "".

(** One item of the list comprehension of [nsdecls]: the declaration of
    [prefix]; [nsmap[prefix]] raises KeyError for an unknown prefix, which
    is the [None] here. *)
Definition nsdecl (prefix : string) : option string :=
  match lookup prefix nsmap with
  | Some uri => Some ("xmlns:" ++ prefix ++ "=" ++ dquote ++ uri ++ dquote)
  | None => None
  end.

Fixpoint nsdecl_list (prefixes : list string) : option (list string) :=
  match prefixes with
  | [] => Some []
  | prefix :: rest =>
      match nsdecl prefix with
      | Some d =>
          match nsdecl_list rest with
          | Some ds => Some (d :: ds)
          | None => None
          end
      | None => None
      end
  end.

Definition nsdecls (prefixes : list string) : option string :=
  match nsdecl_list prefixes with
  | Some ds => Some (Py.join " " ds)
  | None => None
  end.

(** The text handed to [parse_xml] by [set_cell_background_color]. *)
Definition shading_markup (color : string) : option string :=
  match nsdecls ["w"] with
  | Some decls =>
      Some ("<w:shd " ++ decls ++ " w:fill=" ++ dquote ++ color ++ dquote ++ "/>")
  | None => None
  end.

(** ** Shapes of rows and texts *)

(** Neither a carriage return nor a line feed occurs in the text. *)
Fixpoint no_newline (s : string) : bool :=
  match s with
  | EmptyString => true
  | String c s' =>
      negb (Ascii.eqb c Py.CR) && negb (Ascii.eqb c Py.LF) && no_newline s'
  end.

(** The line ends the file may use after a line. *)
Definition line_end (e : string) : Prop :=
  e = String Py.LF "" \/ e = String Py.CR (String Py.LF "").

(** The text colors and fills the renderer combines. *)
Definition styled (rgb : option string) (fills : list string) : Prop :=
  (rgb = Some "FFFFFF" /\ fills = ["E94347"])
  \/ (rgb = None
      /\ (fills = [] \/ fills = ["EAF1DD"] \/ fills = ["F2DBDB"])).

(** A finished row: one cell over six columns, or six cells of one
    column each with a common style. *)
Definition finished_row (r : row) : Prop :=
  (exists text rgb fills,
      r = [final_cell 6 text rgb fills] /\ styled rgb fills)
  \/ (exists texts rgb fills,
         r = map (fun text => final_cell 1 text rgb fills) texts
         /\ length texts = 6 /\ styled rgb fills).

(** The four fields of a port record that are written to a cell as they
    are hold a string. *)
Definition writable (port : port_data) : Prop :=
  portid port <> None /\ protocol port <> None
  /\ state port <> None /\ service port <> None.

Definition is_table (b : block) : bool :=
  match b with
  | Table _ => true
  | Paragraph _ => false
  end.

(** ** Sample inputs *)

Module Sample.

Definition http_port : element :=
  Element "port" [("protocol", "tcp"); ("portid", "80")]
    [Element "state" [("state", "open"); ("reason", "syn-ack")] [];
     Element "service" [("name", "http"); ("method", "table")] []].

Definition bare_port : element :=
  Element "port" [("protocol", "tcp"); ("portid", "22")]
    [Element "state" [("state", "closed")] []].

Definition stateless_port : element :=
  Element "port" [("protocol", "tcp"); ("portid", "443")] [].

(** A host with one open port, no hostnames and no extraports. *)
Definition minimal_host : element :=
  Element "host" []
    [Element "address" [("addr", "10.0.0.1"); ("addrtype", "ipv4")] [];
     Element "ports" [] [http_port]].

(** A host with addresses of three types, one of them without [addr],
    hostnames with missing attributes, two ports and an extraports
    summary. *)
Definition full_host : element :=
  Element "host" []
    [Element "address" [("addr", "10.0.0.1"); ("addrtype", "ipv4")] [];
     Element "address" [("addr", "AA:BB:CC:DD:EE:FF"); ("addrtype", "mac")] [];
     Element "address" [("addrtype", "ipv6")] [];
     Element "hostnames" []
       [Element "hostname" [("name", "a.example"); ("type", "PTR")] [];
        Element "hostname" [("type", "user")] [];
        Element "hostname" [] []];
     Element "ports" []
       [Element "extraports" [("state", "filtered"); ("count", "997")] [];
        http_port; bare_port]].

Definition broken_host : element :=
  Element "host" [] [Element "ports" [] [http_port; stateless_port]].

Definition minimal_root : element := Element "nmaprun" [] [minimal_host].

(** A port whose service has a product and a version, and a host with
    it. *)
Definition apache_port : element :=
  Element "port" [("protocol", "tcp"); ("portid", "8080")]
    [Element "state" [("state", "filtered")] [];
     Element "service" [("name", "http-proxy"); ("product", "Apache httpd");
                        ("version", "2.4.41")] []].

Definition versioned_host : element :=
  Element "host" []
    [Element "address" [("addr", "10.0.0.2"); ("addrtype", "ipv4")] [];
     Element "ports" [] [apache_port; http_port]].

(** A host whose address has a space and a comma in front. *)
Definition padded_host : element :=
  Element "host" []
    [Element "address" [("addr", " ,10.0.0.1"); ("addrtype", "ipv4")] [];
     Element "address" [("addr", "fe80::1"); ("addrtype", "ipv6")] []].

(** A host whose address begins with a comma. *)
Definition comma_host : element :=
  Element "host" []
    [Element "address" [("addr", ",10.0.0.1"); ("addrtype", "ipv4")] []].

(** A host with a second ports element, whose port has no state child. *)
Definition late_port_host : element :=
  Element "host" []
    [Element "address" [("addr", "10.0.0.1"); ("addrtype", "ipv4")] [];
     Element "ports" [] [http_port];
     Element "ports" [] [stateless_port]].

Definition late_port_root : element := Element "nmaprun" [] [late_port_host].

(** A file system on which every write succeeds. *)
Definition writes (path : string) (doc : document) : result unit := Ok tt.
Definition full_root_two : element :=
  Element "nmaprun" [] [minimal_host; full_host].
Definition broken_root : element :=
  Element "nmaprun" [] [minimal_host; broken_host].

Definition minimal_record : host_data :=
  {| address := "10.0.0.1 (IPV4)"; hostnames := "";
     ports := [ {| portid := Some "80"; protocol := Some "tcp";
                   state := Some "open"; service := Some "http";
                   product := None; version := None |} ];
     extraports := [] |}.

Definition full_record : host_data :=
  {| address := "10.0.0.1 (IPV4), None (IPV6)";
     hostnames := "a.example (PTR), None (user), None (None)";
     ports := [ {| portid := Some "80"; protocol := Some "tcp";
                   state := Some "open"; service := Some "http";
                   product := None; version := None |};
                {| portid := Some "22"; protocol := Some "tcp";
                   state := Some "closed"; service := Some "";
                   product := Some ""; version := Some "" |} ];
     extraports := [ {| extra_state := Some "filtered";
                        extra_count := Some "997" |} ] |}.

Definition rendered (host : host_data) : document :=
  match create_final_host_table [] host with
  | Ok doc => doc
  | Raise _ => []
  end.

Definition versioned_record : host_data :=
  {| address := "10.0.0.2 (IPV4)"; hostnames := "";
     ports := [ {| portid := Some "8080"; protocol := Some "tcp";
                   state := Some "filtered"; service := Some "http-proxy";
                   product := Some "Apache httpd";
                   version := Some "2.4.41" |};
                {| portid := Some "80"; protocol := Some "tcp";
                   state := Some "open"; service := Some "http";
                   product := None; version := None |} ];
     extraports := [] |}.

Definition padded_record : host_data :=
  {| address := "10.0.0.1 (IPV4), fe80::1 (IPV6)"; hostnames := "";
     ports := []; extraports := [] |}.

Definition minimal_document : document := Eval vm_compute in rendered minimal_record.
Definition versioned_document : document :=
  Eval vm_compute in rendered versioned_record.
Definition full_document : document := Eval vm_compute in rendered full_record.

Definition header_text : string :=
  Eval cbv in
    xml_declaration ++ String Py.LF (doctype ++ String Py.LF "<nmaprun/>").

End Sample.

(** * Properties *)

(** ** Loops *)

Lemma bind_ok {A B} (m : result A) (k : A -> result B) (b : B) :
  bind m k = Ok b -> exists a, m = Ok a /\ k a = Ok b.
Proof. destruct m as [a|e]; simpl; [eauto | discriminate]. Qed.

Lemma for_each_append {A B} (f : A -> result B) (l : list A) (acc : list B) :
  for_each (fun acc x => y <- f x ;; Ok (acc ++ [y])%list) l acc
  = (ys <- mapM f l ;; Ok (acc ++ ys)%list).
Proof.
  revert acc; induction l as [|x l IH]; intros acc; simpl.
  - now rewrite app_nil_r.
  - destruct (f x) as [y|e]; simpl; [|reflexivity].
    rewrite IH. destruct (mapM f l) as [ys|e]; simpl; [|reflexivity].
    now rewrite <- app_assoc.
Qed.

Lemma mapM_Forall2 {A B} (f : A -> result B) (l : list A) (ys : list B) :
  mapM f l = Ok ys -> Forall2 (fun x y => f x = Ok y) l ys.
Proof.
  revert ys; induction l as [|x l IH]; intros ys H; simpl in H.
  - injection H as <-. constructor.
  - apply bind_ok in H as (y & Hy & H).
    apply bind_ok in H as (ys' & Hys & H).
    injection H as <-. constructor; auto.
Qed.

Lemma mapM_total {A B} (f : A -> result B) (l : list A) :
  Forall (fun x => exists y, f x = Ok y) l -> exists ys, mapM f l = Ok ys.
Proof.
  induction 1 as [|x l (y & Hy) _ (ys & Hys)]; simpl.
  - eauto.
  - rewrite Hy, Hys. simpl. eauto.
Qed.

(** A traversal whose body can raise only [e] raises [e] as soon as one
    item makes the body raise. *)
Lemma mapM_raise {A B} (f : A -> result B) (e : exn) (l : list A) :
  (forall x e', f x = Raise e' -> e' = e) ->
  Exists (fun x => f x = Raise e) l ->
  mapM f l = Raise e.
Proof.
  intros Hf; induction 1 as [x l Hx | x l _ IH]; simpl.
  - now rewrite Hx.
  - destruct (f x) as [y|e'] eqn:E; simpl.
    + now rewrite IH.
    + f_equal. eauto.
Qed.

Lemma mapM_raise_inv {A B} (f : A -> result B) (e : exn) (l : list A) :
  mapM f l = Raise e -> Exists (fun x => f x = Raise e) l.
Proof.
  induction l as [|x l IH]; simpl; [discriminate|].
  destruct (f x) as [y|e'] eqn:E; simpl.
  - destruct (mapM f l) as [ys|e'']; simpl; [discriminate|].
    intros [= ->]. right. auto.
  - intros [= ->]. now left.
Qed.

Lemma mapM_length {A B} (f : A -> result B) (l : list A) (ys : list B) :
  mapM f l = Ok ys -> length ys = length l.
Proof.
  intros H. apply mapM_Forall2 in H.
  induction H; simpl; congruence.
Qed.

(** ** Strings *)

Lemma append_nil_r (s : string) : s ++ "" = s.
Proof. induction s; simpl; congruence. Qed.

Lemma append_assoc (s t u : string) : (s ++ t) ++ u = s ++ t ++ u.
Proof. induction s; simpl; congruence. Qed.

(** [lstrip] leaves everything from the first kept character on. *)
Lemma lstrip_app_kept (p : ascii -> bool) (pre : string) (c : ascii) (s : string) :
  p c = false ->
  exists pre', Py.lstrip p (pre ++ String c s) = pre' ++ String c s
               /\ Py.lstrip p (pre ++ String c "") = pre' ++ String c "".
Proof.
  intros Hc. induction pre as [|d pre IH]; simpl.
  - rewrite Hc. now exists "".
  - destruct (p d).
    + exact IH.
    + now exists (String d pre).
Qed.

Lemma rstrip_kept (p : ascii -> bool) (s : string) (c : ascii) :
  p c = false -> Py.rstrip p (s ++ String c "") = s ++ String c "".
Proof.
  intros Hc. induction s as [|d s IH]; simpl.
  - now rewrite Hc.
  - rewrite IH. destruct s; reflexivity.
Qed.

Lemma rstrip_dropped (p : ascii -> bool) (s : string) (c : ascii) :
  p c = true -> Py.rstrip p (s ++ String c "") = Py.rstrip p s.
Proof.
  intros Hc. induction s as [|d s IH]; simpl.
  - now rewrite Hc.
  - now rewrite IH.
Qed.

Lemma contains_app (needle pre post : string) :
  Py.contains needle (pre ++ needle ++ post) = true.
Proof.
  assert (P : forall a b, prefix a (a ++ b) = true).
  { induction a as [|c a IH]; intros b; simpl.
    - now destruct b.
    - rewrite IH. now destruct (ascii_dec c c). }
  induction pre as [|c pre IH].
  - change ("" ++ needle ++ post) with (needle ++ post).
    specialize (P needle post).
    destruct (needle ++ post); cbn [Py.contains]; rewrite P; reflexivity.
  - cbn [append Py.contains]. rewrite IH. apply orb_true_r.
Qed.

Lemma join_cons (sep x : string) (l : list string) :
  l <> [] -> Py.join sep (x :: l) = x ++ sep ++ Py.join sep l.
Proof. destruct l; [congruence | reflexivity]. Qed.


(** ** The address field *)

Lemma is_ip_exact (v : option string) :
  is_ip v = true <-> v = Some "ipv4" \/ v = Some "ipv6".
Proof.
  destruct v as [t|]; simpl.
  - rewrite orb_true_iff, !String.eqb_eq.
    split; intros [H|H]; (injection H as -> || subst t); auto.
  - split; [discriminate | intros [H|H]; discriminate].
Qed.

Lemma address_step_entry (acc : string) (a : element) :
  address_step acc a
  = if is_ip (get a "addrtype") then acc ++ address_entry a ++ ", " else acc.
Proof.
  unfold address_step, address_entry, is_ip.
  destruct (get a "addrtype") as [t|]; [|reflexivity].
  destruct (_ || _); [|reflexivity].
  cbn [Py.fmt]. now rewrite !append_assoc.
Qed.

Lemma fold_address_step (l : list element) (acc : string) :
  fold_left address_step l acc
  = acc ++ cat (map (fun e => e ++ ", ")
                    (map address_entry
                         (filter (fun a => is_ip (get a "addrtype")) l))).
Proof.
  revert acc; induction l as [|a l IH]; intros acc; simpl.
  - now rewrite append_nil_r.
  - rewrite IH, address_step_entry.
    destruct (is_ip (get a "addrtype")); simpl; [|reflexivity].
    now rewrite !append_assoc.
Qed.

Lemma cat_join (es : list string) :
  es <> [] -> cat (map (fun e => e ++ ", ") es) = Py.join ", " es ++ ", ".
Proof.
  induction es as [|e es IH]; [congruence|]. intros _.
  destruct es as [|e' es].
  - simpl. now rewrite append_nil_r.
  - rewrite join_cons by discriminate.
    cbn [map cat fold_right] in *. rewrite IH by discriminate.
    now rewrite !append_assoc.
Qed.

Lemma address_entry_closes (a : element) : closes (address_entry a).
Proof.
  exists (Py.fmt (get a "addr") ++ " (" ++ Py.upper (Py.fmt (get a "addrtype"))).
  unfold address_entry. now rewrite !append_assoc.
Qed.

Lemma join_closes (sep : string) (es : list string) :
  es <> [] -> Forall closes es -> closes (Py.join sep es).
Proof.
  induction es as [|e es IH]; [congruence|]. intros _ H.
  inversion H as [|? ? He Hes]; subst.
  destruct es as [|e' es]; [exact He|].
  rewrite join_cons by discriminate.
  destruct IH as (k & Hk); [discriminate | assumption |].
  rewrite Hk. exists (e ++ sep ++ k). now rewrite !append_assoc.
Qed.

(** The two [strip] calls on an accumulator that ends with a closed entry
    and the separator. *)
Lemma strip_accumulator (j : string) :
  closes j ->
  Py.strip (Py.is_char ",") (Py.strip Py.isspace (j ++ ", "))
  = Py.lstrip (Py.is_char ",") (Py.lstrip Py.isspace j).
Proof.
  intros (k & ->). unfold Py.strip.
  rewrite append_assoc. change (")" ++ ", ") with (String ")" ", ").
  destruct (lstrip_app_kept Py.isspace k ")" ", " eq_refl) as (k1 & E1 & E1').
  rewrite E1, E1'.
  change (k1 ++ String ")" ", ") with (k1 ++ String ")" (String "," "" ++ " ")).
  change (String ")" (String "," "" ++ " ")) with (String ")" "," ++ " ").
  rewrite <- append_assoc, rstrip_dropped by reflexivity.
  change (String ")" ",") with (String ")" "" ++ ",").
  rewrite <- append_assoc at 1. rewrite (rstrip_kept Py.isspace _ ",") by reflexivity.
  rewrite append_assoc. change (String ")" "" ++ ",") with (String ")" ",").
  destruct (lstrip_app_kept (Py.is_char ",") k1 ")" "," eq_refl) as (k2 & E2 & E2').
  rewrite E2, E2'.
  change (String ")" ",") with (String ")" "" ++ ",").
  rewrite <- append_assoc, rstrip_dropped by reflexivity.
  now apply rstrip_kept.
Qed.

Lemma host_address_join (host : element) :
  host_address host
  = Py.lstrip (Py.is_char ",")
      (Py.lstrip Py.isspace
         (Py.join ", " (map address_entry (ip_addresses host)))).
Proof.
  unfold host_address. rewrite fold_address_step. fold (ip_addresses host).
  cbn [append].
  destruct (ip_addresses host) as [|a l] eqn:E; [reflexivity|].
  rewrite cat_join by discriminate.
  apply strip_accumulator, join_closes; [discriminate|].
  apply Forall_forall. intros e He. apply in_map_iff in He as (x & <- & _).
  apply address_entry_closes.
Qed.

Lemma parse_host_fields (host : element) (hd : host_data) :
  parse_host host = Ok hd ->
  address hd = host_address host
  /\ hostnames hd = host_hostnames host
  /\ mapM parse_port (host_port_elements host) = Ok (ports hd)
  /\ extraports hd = match find host "ports" with
                     | Some ports_element => parse_extraports ports_element
                     | None => []
                     end.
Proof.
  unfold parse_host, host_port_elements.
  destruct (find host "ports") as [pe|].
  - rewrite for_each_append. intros H.
    apply bind_ok in H as (ps & Hps & H).
    apply bind_ok in Hps as (ps' & Hps' & Hps).
    injection Hps as <-. injection H as <-. simpl. auto.
  - intros [= <-]. simpl. auto.
Qed.

Lemma isspace_codes (c : ascii) :
  Py.isspace c = existsb (Nat.eqb (nat_of_ascii c)) whitespace_codes.
Proof. destruct c as [[] [] [] [] [] [] [] []]; reflexivity. Qed.

Lemma isspace_blank (c : ascii) : Py.isspace c = true <-> blank c.
Proof.
  rewrite isspace_codes. unfold blank. rewrite existsb_exists. split.
  - intros (n & Hin & E). apply Nat.eqb_eq in E. now subst n.
  - intros H. exists (nat_of_ascii c). split; [exact H | apply Nat.eqb_refl].
Qed.

Lemma is_char_comma (c : ascii) : Py.is_char "," c = true <-> comma c.
Proof.
  unfold Py.is_char, comma. rewrite Ascii.eqb_eq. split.
  - now intros ->.
  - intros H. rewrite <- (ascii_nat_embedding c), H. reflexivity.
Qed.

(** What [lstrip] removes and where it stops. *)
Lemma lstrip_split (p : ascii -> bool) (s : string) :
  exists pre,
    s = pre ++ Py.lstrip p s
    /\ every (fun c => p c = true) pre
    /\ ~ begins (fun c => p c = true) (Py.lstrip p s).
Proof.
  induction s as [|c s (pre & E & A & B)].
  - exists "". simpl. auto.
  - cbn [Py.lstrip]. destruct (p c) eqn:Hc.
    + exists (String c pre). cbn [append every]. rewrite <- E. auto.
    + exists "". cbn [append every begins]. rewrite Hc.
      split; [reflexivity|]. split; [exact I | discriminate].
Qed.

Lemma every_impl (P Q : ascii -> Prop) (s : string) :
  (forall c, P c -> Q c) -> every P s -> every Q s.
Proof. intros H. induction s as [|c s IH]; simpl; [auto | intros (Hc & Hs); auto]. Qed.

Lemma begins_impl (P Q : ascii -> Prop) (s : string) :
  (forall c, P c -> Q c) -> begins P s -> begins Q s.
Proof. intros H. destruct s as [|c s]; simpl; auto. Qed.

Lemma join_comma_joined (l : list string) : Py.join ", " l = comma_joined l.
Proof.
  destruct l as [|e rest]; [reflexivity|]. revert e.
  induction rest as [|x rest IH]; intros e.
  - simpl. now rewrite append_nil_r.
  - rewrite join_cons by discriminate. rewrite IH.
    unfold comma_joined. cbn [map cat fold_right].
    now rewrite !append_assoc.
Qed.

(** C7, as the code has it.  The address field of a host record is made
    of the address children whose addrtype is exactly ipv4 or ipv6, in
    document order, each as its addr (None when absent) followed by a
    space and IPV4 or IPV6 in parentheses, with a comma and a space
    between them.  Of that text the field keeps everything after its
    leading whitespace and the commas that follow it; the trailing comma
    and space of the accumulator are gone, so the field is empty or ends
    with the closing parenthesis; with no such child it is empty. *)
Theorem address_field (host : element) (hd : host_data) :
  parse_host host = Ok hd ->
  let entries := map address_entry (ip_addresses host) in
  (forall a, In a (ip_addresses host) <->
             In a (findall host "address")
             /\ (get a "addrtype" = Some "ipv4" \/ get a "addrtype" = Some "ipv6"))
  /\ Forall (fun a =>
               exists x,
                 (get a "addr" = Some x \/ get a "addr" = None /\ x = "None")
                 /\ (get a "addrtype" = Some "ipv4"
                     /\ address_entry a = x ++ " (IPV4)"
                     \/ get a "addrtype" = Some "ipv6"
                        /\ address_entry a = x ++ " (IPV6)"))
            (ip_addresses host)
  /\ (exists ws cs,
        comma_joined entries = ws ++ cs ++ address hd
        /\ every blank ws
        /\ every comma cs
        /\ ~ begins blank (cs ++ address hd)
        /\ ~ begins comma (address hd))
  /\ (address hd = "" \/ closes (address hd))
  /\ (ip_addresses host = [] -> address hd = "").
Proof.
  intros H entries. apply parse_host_fields in H as (Ha & _).
  assert (Hin : forall a, In a (ip_addresses host) <->
             In a (findall host "address")
             /\ (get a "addrtype" = Some "ipv4" \/ get a "addrtype" = Some "ipv6")).
  { intros a. unfold ip_addresses. now rewrite filter_In, is_ip_exact. }
  assert (Hj := host_address_join host). fold entries in Hj.
  split; [exact Hin|]. split; [|split; [|split]].
  - apply Forall_forall. intros a Hi. apply Hin in Hi as (_ & Ht).
    exists (Py.fmt (get a "addr")). split.
    + destruct (get a "addr"); [left | right]; auto.
    + unfold address_entry. destruct Ht as [E|E]; rewrite E; [left | right];
        (split; reflexivity).
  - rewrite Ha, Hj, join_comma_joined.
    destruct (lstrip_split Py.isspace (comma_joined entries)) as (ws & E1 & A1 & B1).
    destruct (lstrip_split (Py.is_char ",")
                           (Py.lstrip Py.isspace (comma_joined entries)))
      as (cs & E2 & A2 & B2).
    exists ws, cs. split; [now rewrite <- E2|].
    split; [eapply every_impl; [|exact A1]; intros c; apply isspace_blank|].
    split; [eapply every_impl; [|exact A2]; intros c; apply is_char_comma|].
    split.
    + rewrite <- E2. intros F. apply B1.
      eapply begins_impl; [|exact F]. intros c; apply isspace_blank.
    + intros F. apply B2.
      eapply begins_impl; [|exact F]. intros c; apply is_char_comma.
  - rewrite Ha, Hj. subst entries.
    destruct (ip_addresses host) as [|a l]; [now left | right].
    assert (C : closes (Py.join ", " (map address_entry (a :: l)))).
    { apply join_closes; [discriminate|].
      apply Forall_forall. intros e He. apply in_map_iff in He as (x & <- & _).
      apply address_entry_closes. }
    destruct C as (k & ->).
    destruct (lstrip_app_kept Py.isspace k ")" "" eq_refl) as (k1 & -> & _).
    destruct (lstrip_app_kept (Py.is_char ",") k1 ")" "" eq_refl) as (k2 & -> & _).
    now exists k2.
  - intros E. rewrite Ha, Hj. subst entries. now rewrite E.
Qed.

Lemma address_field_witness :
  parse_host Sample.padded_host = Ok Sample.padded_record
  /\ map address_entry (ip_addresses Sample.padded_host)
     = [" ,10.0.0.1 (IPV4)"; "fe80::1 (IPV6)"]
  /\ address Sample.padded_record = "10.0.0.1 (IPV4), fe80::1 (IPV6)"
  /\ exists ws cs,
      comma_joined (map address_entry (ip_addresses Sample.padded_host))
      = ws ++ cs ++ address Sample.padded_record
      /\ every blank ws
      /\ every comma cs
      /\ ~ begins blank (cs ++ address Sample.padded_record)
      /\ ~ begins comma (address Sample.padded_record).
Proof.
  split; [reflexivity|]. split; [reflexivity|]. split; [reflexivity|].
  exact (proj1 (proj2 (proj2 (address_field Sample.padded_host
                                            Sample.padded_record eq_refl)))).
Defined.

(** C7, as the spec has it, fails on the sample host whose address begins
    with a comma: its one entry has neither whitespace at its ends nor a
    trailing comma, yet the field is not that entry, the leading comma is
    stripped as well. *)
Lemma address_field_leading_comma :
  exists hd,
    parse_host Sample.comma_host = Ok hd
    /\ map address_entry (ip_addresses Sample.comma_host)
       = [",10.0.0.1 (IPV4)"]
    /\ address hd = "10.0.0.1 (IPV4)"
    /\ address hd <> ",10.0.0.1 (IPV4)".
Proof.
  eexists. split; [reflexivity|]. split; [reflexivity|].
  split; [reflexivity | discriminate].
Qed.

(** ** Ports of a host *)

Lemma parse_port_state (port st : element) :
  find port "state" = Some st ->
  parse_port port
  = Ok {| portid := get port "portid";
          protocol := get port "protocol";
          state := get st "state";
          service := service_field port "name";
          product := service_field port "product";
          version := service_field port "version" |}.
Proof. intros H. unfold parse_port, port_state. now rewrite H. Qed.

Lemma parse_port_raise (port : element) (e : exn) :
  parse_port port = Raise e -> e = AttributeError /\ find port "state" = None.
Proof.
  unfold parse_port, port_state.
  destruct (find port "state"); simpl; [discriminate|].
  intros [= <-]. auto.
Qed.

Lemma parse_port_no_state (port : element) :
  find port "state" = None -> parse_port port = Raise AttributeError.
Proof. intros H. unfold parse_port, port_state. now rewrite H. Qed.

Lemma parse_host_ports (host : element) :
  parse_host host
  = (ps <- mapM parse_port (host_port_elements host) ;;
     Ok {| address := host_address host;
           hostnames := host_hostnames host;
           ports := ps;
           extraports := match find host "ports" with
                         | Some ports_element => parse_extraports ports_element
                         | None => []
                         end |}).
Proof.
  unfold parse_host, host_port_elements.
  destruct (find host "ports") as [pe|]; [|reflexivity].
  rewrite for_each_append.
  destruct (mapM parse_port (findall pe "port")); reflexivity.
Qed.

Lemma parse_host_total (host : element) :
  Forall (fun port => find port "state" <> None) (host_port_elements host) ->
  exists hd, parse_host host = Ok hd.
Proof.
  intros H. rewrite parse_host_ports.
  destruct (mapM_total parse_port (host_port_elements host)) as (ps & ->).
  - eapply Forall_impl; [|exact H]. intros port Hp. cbv beta in Hp.
    destruct (find port "state") as [st|] eqn:E; [|congruence].
    rewrite (parse_port_state _ _ E). eauto.
  - simpl. eauto.
Qed.

Lemma parse_host_raise (host : element) (e : exn) :
  parse_host host = Raise e ->
  e = AttributeError
  /\ Exists (fun port => find port "state" = None) (host_port_elements host).
Proof.
  rewrite parse_host_ports.
  destruct (mapM parse_port (host_port_elements host)) as [ps|e'] eqn:E;
    simpl; [discriminate|].
  intros [= ->]. apply mapM_raise_inv in E.
  apply Exists_exists in E as (port & Hin & Hp).
  apply parse_port_raise in Hp as (-> & Hp).
  split; [reflexivity|]. apply Exists_exists. eauto.
Qed.

(** C5. A port element without a service child is extracted with service,
    product and version all the empty string: with its state child in
    place the port record is built, and when building it raises, the
    cause is the missing state child, never the missing service. *)
Theorem missing_service (port : element) :
  find port "service" = None ->
  (forall st, find port "state" = Some st ->
     parse_port port
     = Ok {| portid := get port "portid";
             protocol := get port "protocol";
             state := get st "state";
             service := Some ""; product := Some ""; version := Some "" |})
  /\ (forall e, parse_port port = Raise e -> find port "state" = None).
Proof.
  intros Hs. split.
  - intros st Hst. rewrite (parse_port_state _ _ Hst).
    unfold service_field. now rewrite Hs.
  - intros e He. now apply parse_port_raise in He.
Qed.

Lemma missing_service_witness :
  find Sample.bare_port "service" = None
  /\ parse_port Sample.bare_port
     = Ok {| portid := Some "22"; protocol := Some "tcp";
             state := Some "closed";
             service := Some ""; product := Some ""; version := Some "" |}.
Proof.
  split; [reflexivity|].
  exact (proj1 (missing_service Sample.bare_port eq_refl)
               (Element "state" [("state", "closed")] []) eq_refl).
Defined.

(** ** Missing attributes in addresses and hostnames *)





(** ** The rows of a table *)

Lemma mapM_ext {A B} (f g : A -> result B) (l : list A) :
  (forall x, f x = g x) -> mapM f l = mapM g l.
Proof. intros H. induction l as [|x l IH]; simpl; [|rewrite H, IH]; reflexivity. Qed.

Lemma for_each_push {A} (f : table -> A -> result row) (l : list A) (t : table) :
  (forall t t' x, cols t = cols t' -> f t x = f t' x) ->
  for_each (fun t x => r <- f t x ;; Ok (push_row t r)) l t
  = (rs <- mapM (f t) l ;;
     Ok {| cols := cols t; style := style t; rows := rows t ++ rs |}).
Proof.
  intros Hf. revert t; induction l as [|x l IH]; intros t; simpl.
  - rewrite app_nil_r. now destruct t.
  - destruct (f t x) as [r|e]; simpl; [|reflexivity].
    rewrite IH, (mapM_ext (f (push_row t r)) (f t)) by (intros; now apply Hf).
    destruct (mapM (f t) l) as [rs|e]; simpl; [|reflexivity].
    now rewrite <- app_assoc.
Qed.

Lemma band_row_eq (t : table) (label : string) :
  cols t = 6 ->
  band_row t label = Ok [filled_cell 6 label (Some "FFFFFF") ["E94347"]].
Proof. intros H. unfold band_row, add_row. rewrite H. reflexivity. Qed.

Lemma value_row_eq (t : table) (text : string) :
  cols t = 6 -> value_row t text = Ok [filled_cell 6 text None []].
Proof. intros H. unfold value_row, add_row. rewrite H. reflexivity. Qed.

Lemma titles_row_eq (t : table) :
  cols t = 6 ->
  titles_row t
  = Ok (map (fun title => filled_cell 1 title (Some "FFFFFF") ["E94347"])
            headers).
Proof. intros H. unfold titles_row, add_row. rewrite H. reflexivity. Qed.

Lemma extraport_row_eq (t : table) (extraport : extraport_data) :
  cols t = 6 ->
  extraport_row t extraport
  = Ok [filled_cell 6 (extraport_text extraport) None []].
Proof. intros H. unfold extraport_row, add_row. rewrite H. reflexivity. Qed.

Lemma port_row_cols (t t' : table) (port : port_data) :
  cols t = cols t' -> port_row t port = port_row t' port.
Proof. intros H. unfold port_row, add_row. now rewrite H. Qed.

Lemma extraport_row_cols (t t' : table) (extraport : extraport_data) :
  cols t = cols t' -> extraport_row t extraport = extraport_row t' extraport.
Proof. intros H. unfold extraport_row, add_row. now rewrite H. Qed.

(** What [port_row] returns, by the fields of the port record. *)
Lemma port_row_eq (port : port_data) :
  port_row table6 port
  = match portid port, protocol port, state port, service port with
    | Some a, Some b, Some c, Some d =>
        let fill := [state_color (Some c)] in
        Ok [ filled_cell 1 a None fill; filled_cell 1 b None fill;
             filled_cell 1 c None fill; filled_cell 1 d None fill;
             filled_cell 1 (Py.fmt (str_or_empty (product port))) None fill;
             filled_cell 1 (Py.fmt (str_or_empty (version port))) None fill ]
    | _, _, _, _ => Raise TypeError
    end.
Proof.
  destruct port as [[a|] [b|] [c|] [d|] [pr|] [v|]]; reflexivity.
Qed.

Lemma mapM_extraport_row (l : list extraport_data) :
  mapM (extraport_row table6) l
  = Ok (map (fun ep => [filled_cell 6 (extraport_text ep) None []]) l).
Proof.
  induction l as [|ep l IH]; cbn [mapM map]; [reflexivity|].
  rewrite IH, extraport_row_eq by reflexivity. reflexivity.
Qed.

(** The table of a host: the five leading rows, the port rows and the
    extraports rows, then the font loop. *)
Lemma create_final_host_table_eq (doc : document) (host : host_data) :
  create_final_host_table doc host
  = (prs <- mapM (port_row table6) (ports host) ;;
     Ok (doc ++ [Table (set_fonts
                          {| cols := 6; style := Some "Table Grid";
                             rows := head_rows host ++ prs
                                     ++ map (fun ep => [filled_cell 6 (extraport_text ep) None []])
                                            (extraports host) |});
                 Paragraph []])%list).
Proof.
  unfold create_final_host_table.
  rewrite band_row_eq by reflexivity. cbn [bind].
  rewrite value_row_eq by reflexivity. cbn [bind].
  rewrite band_row_eq by reflexivity. cbn [bind].
  rewrite value_row_eq by reflexivity. cbn [bind].
  rewrite titles_row_eq by reflexivity. cbn [bind].
  rewrite (for_each_push port_row) by apply port_row_cols.
  rewrite (mapM_ext _ (port_row table6)) by (intros; now apply port_row_cols).
  destruct (mapM (port_row table6) (ports host)) as [prs|e]; [|reflexivity].
  cbn [bind].
  rewrite (for_each_push extraport_row) by apply extraport_row_cols.
  rewrite (mapM_ext _ (extraport_row table6))
    by (intros; now apply extraport_row_cols).
  rewrite mapM_extraport_row. cbn [bind cols style rows push_row add_table app].
  reflexivity.
Qed.

Lemma cell_text_final (span : nat) (text : string) (rgb : option string)
      (fills : list string) :
  cell_text (final_cell span text rgb fills) = text.
Proof. reflexivity. Qed.

Lemma Forall2_chain {A B C} (P : A -> B -> Prop) (Q : B -> C -> Prop)
      (R : A -> C -> Prop) (F : C -> C) (l1 : list A) (l2 : list B) (l3 : list C) :
  (forall x y z, P x y -> Q y z -> R x (F z)) ->
  Forall2 P l1 l2 -> Forall2 Q l2 l3 -> Forall2 R l1 (map F l3).
Proof.
  intros H H12. revert l3. induction H12 as [|x y l1 l2 Hxy _ IH]; intros l3 H23.
  - inversion H23; subst. constructor.
  - inversion H23; subst. simpl. constructor; eauto.
Qed.

(** The table a successful call appends to the document. *)
Lemma rendered_table (doc doc' : document) (host : host_data) :
  create_final_host_table doc host = Ok doc' ->
  exists prs,
    mapM (port_row table6) (ports host) = Ok prs
    /\ doc' = (doc ++ [Table {| cols := 6; style := Some "Table Grid";
                                rows := final_head_rows host
                                        ++ map (for_cells set_cell_font) prs
                                        ++ map (fun ep => [final_cell 6 (extraport_text ep) None []])
                                               (extraports host) |};
                       Paragraph []])%list.
Proof.
  rewrite create_final_host_table_eq. intros H.
  apply bind_ok in H as (prs & Hprs & H). injection H as <-.
  exists prs. split; [exact Hprs|].
  unfold set_fonts. cbn [cols style rows map].
  rewrite map_app, map_map. reflexivity.
Qed.

(** A port record written from a port element, shown in a row. *)
Lemma port_row_shows (port : element) (pd : port_data) (r : row) :
  parse_port port = Ok pd -> port_row table6 pd = Ok r ->
  shows_port port (for_cells set_cell_font r).
Proof.
  intros Hp Hr. rewrite port_row_eq in Hr.
  destruct (find port "state") as [st|] eqn:Est;
    [|now rewrite parse_port_no_state in Hp].
  rewrite (parse_port_state _ _ Est) in Hp. injection Hp as <-.
  cbn [portid protocol state service product version] in Hr.
  destruct (get port "portid") as [a|] eqn:Ea; [|discriminate].
  destruct (get port "protocol") as [b|] eqn:Eb; [|discriminate].
  destruct (get st "state") as [c|] eqn:Ec; [|discriminate].
  destruct (service_field port "name") as [d|] eqn:Ed; [|discriminate].
  injection Hr as <-.
  set (fill := [state_color (Some c)]).
  exists st, (final_cell 1 a None fill), (final_cell 1 b None fill),
    (final_cell 1 c None fill), (final_cell 1 d None fill),
    (final_cell 1 (Py.fmt (str_or_empty (service_field port "product"))) None fill),
    (final_cell 1 (Py.fmt (str_or_empty (service_field port "version"))) None fill).
  split; [exact Est|]. split; [reflexivity|].
  rewrite !cell_text_final, Ec.
  split; [exact Ea|]. split; [exact Eb|]. split; [reflexivity|].
  split.
  - unfold service_field in *.
    destruct (find port "service") as [s|].
    + split; [exact Ed|].
      split; [now destruct (get s "product") | now destruct (get s "version")].
    + injection Ed as <-. repeat split.
  - unfold state_color. repeat constructor.
Qed.

Lemma port_row_total (port : element) :
  renderable_port port ->
  exists pd r, parse_port port = Ok pd /\ port_row table6 pd = Ok r.
Proof.
  intros ((st & Hst & Hs) & Ha & Hb & Hd).
  rewrite (parse_port_state _ _ Hst).
  destruct (get port "portid") as [a|]; [|congruence].
  destruct (get port "protocol") as [b|]; [|congruence].
  destruct (get st "state") as [c|]; [|congruence].
  destruct (service_field port "name") as [d|]; [|congruence].
  do 2 eexists. split; [reflexivity|].
  rewrite port_row_eq. reflexivity.
Qed.

Lemma host_table_total (host : element) (doc : document) :
  Forall renderable_port (host_port_elements host) ->
  exists hd doc', parse_host host = Ok hd
                  /\ create_final_host_table doc hd = Ok doc'.
Proof.
  intros H. rewrite parse_host_ports.
  assert (T : exists pds prs, mapM parse_port (host_port_elements host) = Ok pds
                              /\ mapM (port_row table6) pds = Ok prs).
  { induction H as [|port l Hp _ (pds & prs & E1 & E2)].
    - exists [], []. auto.
    - destruct (port_row_total port Hp) as (pd & r & Hpd & Hr).
      exists (pd :: pds), (r :: prs). simpl. now rewrite Hpd, E1, Hr, E2. }
  destruct T as (pds & prs & -> & Hprs). cbn [bind].
  do 2 eexists. split; [reflexivity|].
  rewrite create_final_host_table_eq. cbn [ports].
  rewrite Hprs. reflexivity.
Qed.

(** C4. The table of a host has, after its five leading rows and before
    its extraports rows, one row per port element under the ports
    element, in document order; the six cells of a row hold the portid,
    protocol, state, service name, product and version of the port (product
    and version empty when absent), and every cell of the row is filled
    with EAF1DD when the state is exactly open and with F2DBDB otherwise.
    A host whose port elements carry the attributes written as they are is
    rendered. *)
Theorem port_rows (host : element) (doc : document) :
  (Forall renderable_port (host_port_elements host) ->
   exists hd doc', parse_host host = Ok hd
                   /\ create_final_host_table doc hd = Ok doc')
  /\ (forall hd doc',
        parse_host host = Ok hd ->
        create_final_host_table doc hd = Ok doc' ->
        exists t hrs prs ers,
          doc' = (doc ++ [Table t; Paragraph []])%list
          /\ rows t = (hrs ++ prs ++ ers)%list
          /\ length hrs = 5
          /\ length ers = length (extraports hd)
          /\ length prs = length (host_port_elements host)
          /\ Forall2 shows_port (host_port_elements host) prs).
Proof.
  split; [apply host_table_total|].
  intros hd doc' Hh Hr.
  apply rendered_table in Hr as (prs & Hprs & ->).
  apply parse_host_fields in Hh as (_ & _ & Hps & _).
  assert (F : Forall2 shows_port (host_port_elements host)
                      (map (for_cells set_cell_font) prs)).
  { eapply Forall2_chain;
      [| apply mapM_Forall2, Hps | apply mapM_Forall2, Hprs].
    intros port pd r. apply port_row_shows. }
  eexists _, (final_head_rows hd), _, _.
  split; [reflexivity|]. split; [reflexivity|]. split; [reflexivity|].
  split; [now rewrite length_map|].
  split; [|exact F].
  symmetry. exact (Forall2_length F).
Qed.

Lemma port_rows_witness :
  Forall renderable_port (host_port_elements Sample.versioned_host)
  /\ (exists hd doc', parse_host Sample.versioned_host = Ok hd
                      /\ create_final_host_table [] hd = Ok doc')
  /\ (exists t hrs prs ers,
        Sample.versioned_document = ([] ++ [Table t; Paragraph []])%list
        /\ rows t = (hrs ++ prs ++ ers)%list
        /\ length hrs = 5
        /\ length ers = length (extraports Sample.versioned_record)
        /\ length prs = length (host_port_elements Sample.versioned_host)
        /\ Forall2 shows_port (host_port_elements Sample.versioned_host) prs)
  /\ map (map cell_text) (skipn 5 (rows (hd (add_table 6 "")
                                            (tables Sample.versioned_document))))
     = [ ["8080"; "tcp"; "filtered"; "http-proxy"; "Apache httpd"; "2.4.41"];
         ["80"; "tcp"; "open"; "http"; ""; ""] ]
  /\ map (map shd) (skipn 5 (rows (hd (add_table 6 "")
                                      (tables Sample.versioned_document))))
     = [ repeat ["F2DBDB"] 6; repeat ["EAF1DD"] 6 ].
Proof.
  assert (H : Forall renderable_port (host_port_elements Sample.versioned_host)).
  { repeat constructor; try discriminate; eexists; split;
      try reflexivity; discriminate. }
  split; [exact H|]. split; [|split; [|split; reflexivity]].
  - exact (proj1 (port_rows Sample.versioned_host []) H).
  - exact (proj2 (port_rows Sample.versioned_host [])
                 Sample.versioned_record Sample.versioned_document
                 eq_refl eq_refl).
Defined.

(** ** The column titles *)

Lemma runs_colored_final (span : nat) (text : string) (rgb : option string)
      (fills : list string) :
  runs_colored rgb (final_cell span text rgb fills).
Proof. split; [discriminate | repeat constructor]. Qed.

(** C1, as the code has it.  In every rendered host table the six cells of
    the column-title row carry the labels Port, Protocol, State, Service,
    Product and Version, the accent fill E94347 and the explicit text
    color FFFFFF, exactly like the Address and Hostnames bands; the two
    value rows have neither fill nor text color. *)
Theorem column_titles (doc doc' : document) (host : host_data) :
  create_final_host_table doc host = Ok doc' ->
  exists t band1 value1 band2 value2 titles rest,
    doc' = (doc ++ [Table t; Paragraph []])%list
    /\ rows t = band1 :: value1 :: band2 :: value2 :: titles :: rest
    /\ map cell_text titles = headers
    /\ Forall (fun c => grid_span c = 1 /\ shd c = ["E94347"]
                        /\ runs_colored (Some "FFFFFF") c) titles
    /\ map cell_text band1 = ["Address"]
    /\ map cell_text band2 = ["Hostnames"]
    /\ Forall (fun c => grid_span c = 6 /\ shd c = ["E94347"]
                        /\ runs_colored (Some "FFFFFF") c) (band1 ++ band2)
    /\ map cell_text value1 = [address host]
    /\ map cell_text value2 = [hostnames host]
    /\ Forall (fun c => grid_span c = 6 /\ shd c = []
                        /\ runs_colored None c) (value1 ++ value2).
Proof.
  intros H. apply rendered_table in H as (prs & _ & ->).
  do 7 eexists. split; [reflexivity|]. split; [reflexivity|].
  repeat match goal with |- _ /\ _ => split end; try reflexivity;
    repeat constructor; try discriminate.
Qed.

Lemma column_titles_witness :
  create_final_host_table [] Sample.minimal_record = Ok Sample.minimal_document
  /\ exists t band1 value1 band2 value2 titles rest,
      Sample.minimal_document = ([] ++ [Table t; Paragraph []])%list
      /\ rows t = band1 :: value1 :: band2 :: value2 :: titles :: rest
      /\ map cell_text titles = headers
      /\ Forall (fun c => grid_span c = 1 /\ shd c = ["E94347"]
                          /\ runs_colored (Some "FFFFFF") c) titles.
Proof.
  split; [reflexivity|].
  destruct (column_titles [] Sample.minimal_document Sample.minimal_record eq_refl)
    as (t & b1 & v1 & b2 & v2 & ti & rest & H1 & H2 & H3 & H4 & _).
  exists t, b1, v1, b2, v2, ti, rest. auto.
Defined.

(** C1, as the spec has it, fails on the table of the sample host: the
    runs of the six column-title cells have the text color FFFFFF, not the
    default. *)
Lemma column_titles_not_default :
  exists t titles,
    parse_host Sample.minimal_host = Ok Sample.minimal_record
    /\ create_final_host_table [] Sample.minimal_record
       = Ok [Table t; Paragraph []]
    /\ nth_error (rows t) 4 = Some titles
    /\ map cell_text titles = headers
    /\ Forall (fun c => shd c = ["E94347"]) titles
    /\ Forall (fun c => Forall (fun r => font_color r = Some "FFFFFF")
                               (cell_runs c)) titles
    /\ ~ Forall (fun c => Forall (fun r => font_color r = None)
                                 (cell_runs c)) titles.
Proof.
  do 2 eexists. split; [reflexivity|]. split; [reflexivity|].
  split; [reflexivity|]. split; [reflexivity|].
  split; [repeat constructor|]. split; [repeat constructor|].
  intros H. inversion H as [|c l Hc _]; subst.
  inversion Hc as [|r l' Hr _]; subst. discriminate.
Qed.

(** ** One host, one port *)

Lemma parse_nmap_xml_mapM (root : element) :
  parse_nmap_xml root = mapM parse_host (findall_descendants root "host").
Proof.
  unfold parse_nmap_xml. rewrite for_each_append.
  now destruct (mapM parse_host _).
Qed.

Lemma convert_single (root host : element) :
  findall_descendants root "host" = [host] ->
  convert root = (hd <- parse_host host ;; create_final_host_table [] hd).
Proof.
  intros H. unfold convert. rewrite parse_nmap_xml_mapM, H. simpl.
  destruct (parse_host host) as [hd|e]; simpl; [|reflexivity].
  now destruct (create_final_host_table [] hd).
Qed.

(** C2, as the code has it.  A tree with exactly one host that has exactly
    one port, open, and no extraports element is rendered as one table of
    exactly 6 rows: 2 band rows, 2 value rows, 1 column-title row, 1 port
    row and no extraports row; the table is produced whenever the port
    carries the attributes written as they are. *)
Theorem single_port_table (root host port : element) :
  findall_descendants root "host" = [host] ->
  host_port_elements host = [port] ->
  (exists st, find port "state" = Some st /\ get st "state" = Some "open") ->
  (forall pe, find host "ports" = Some pe -> find pe "extraports" = None) ->
  (renderable_port port -> exists doc, convert root = Ok doc)
  /\ (forall doc, convert root = Ok doc ->
      exists t band1 value1 band2 value2 titles port_row,
        doc = [Table t; Paragraph []]
        /\ tables doc = [t]
        /\ rows t = [band1; value1; band2; value2; titles; port_row]
        /\ length (rows t) = 6
        /\ map cell_text band1 = ["Address"]
        /\ map cell_text band2 = ["Hostnames"]
        /\ map cell_text titles = headers
        /\ shows_port port port_row
        /\ Forall (fun c => shd c = ["EAF1DD"]) port_row).
Proof.
  intros Hroot Hports Hopen Hextra.
  rewrite (convert_single _ _ Hroot). split.
  - intros Hp.
    destruct (host_table_total host []) as (hd & doc & -> & Hd).
    + rewrite Hports. now constructor.
    + exists doc. exact Hd.
  - intros doc H. apply bind_ok in H as (hd & Hhd & H).
    apply rendered_table in H as (prs & Hprs & ->).
    apply parse_host_fields in Hhd as (_ & _ & Hps & He).
    rewrite Hports in Hps.
    assert (E : extraports hd = []).
    { rewrite He. destruct (find host "ports") as [pe|] eqn:Ep; [|reflexivity].
      unfold parse_extraports. now rewrite (Hextra pe). }
    rewrite E. simpl in Hps.
    apply bind_ok in Hps as (pd & Hpd & Hps). injection Hps as Hps.
    rewrite <- Hps in Hprs. simpl in Hprs.
    apply bind_ok in Hprs as (r & Hr & Hprs). injection Hprs as <-.
    pose proof (port_row_shows _ _ _ Hpd Hr) as S.
    do 7 eexists. split; [reflexivity|]. split; [reflexivity|].
    split; [reflexivity|]. split; [reflexivity|].
    split; [reflexivity|]. split; [reflexivity|]. split; [reflexivity|].
    split; [exact S|].
    destruct S as (st & c0 & c1 & c2 & c3 & c4 & c5 & Hst & -> & _ & _ & Hs & _ & F).
    destruct Hopen as (st' & Hst' & Hopen).
    rewrite Hst in Hst'. injection Hst' as <-.
    rewrite Hopen in Hs. injection Hs as Hs. rewrite <- Hs in F.
    eapply Forall_impl; [|exact F]. now intros c (_ & ->).
Qed.

Lemma single_port_table_witness :
  convert Sample.minimal_root = Ok Sample.minimal_document
  /\ exists t band1 value1 band2 value2 titles port_row,
      Sample.minimal_document = [Table t; Paragraph []]
      /\ tables Sample.minimal_document = [t]
      /\ rows t = [band1; value1; band2; value2; titles; port_row]
      /\ length (rows t) = 6.
Proof.
  split; [reflexivity|].
  assert (Hopen : exists st, find Sample.http_port "state" = Some st
                             /\ get st "state" = Some "open").
  { eexists. split; reflexivity. }
  assert (Hextra : forall pe, find Sample.minimal_host "ports" = Some pe ->
                              find pe "extraports" = None).
  { intros pe [= <-]. reflexivity. }
  destruct (proj2 (single_port_table Sample.minimal_root Sample.minimal_host
                                     Sample.http_port eq_refl eq_refl Hopen Hextra)
                  Sample.minimal_document eq_refl)
    as (t & b1 & v1 & b2 & v2 & ti & pr & H1 & H2 & H3 & H4 & _).
  exists t, b1, v1, b2, v2, ti, pr. auto.
Defined.

(** C2, as the spec has it, fails on the sample tree: one host, one open
    port, no hostnames and no extraports element give one table of 6
    rows, not 7. *)
Lemma single_port_table_not_7_rows :
  findall_descendants Sample.minimal_root "host" = [Sample.minimal_host]
  /\ host_port_elements Sample.minimal_host = [Sample.http_port]
  /\ find Sample.minimal_host "hostnames" = None
  /\ (exists pe, find Sample.minimal_host "ports" = Some pe
                 /\ find pe "extraports" = None)
  /\ exists t, convert Sample.minimal_root = Ok [Table t; Paragraph []]
               /\ length (rows t) = 6
               /\ length (rows t) <> 7.
Proof.
  repeat split.
  - eexists. split; reflexivity.
  - eexists. split; [reflexivity|]. split; [reflexivity | discriminate].
Qed.

(** ** Extraports *)

Lemma summary_rows_show (l : list extraport_data) :
  Forall2 shows_extraport l
          (map (fun ep => [final_cell 6 (extraport_text ep) None []]) l).
Proof.
  induction l as [|ep l IH]; simpl; constructor; [|exact IH].
  eexists. repeat split.
Qed.

(** C9. A host record has at most one extraports summary; with a ports
    element it is taken from the state and count attributes of the first
    extraports child, and there is none when there is no such child; a
    host without a ports element has no port and no summary.  In the
    table each summary is one row after the port rows: a single cell
    merged over the six columns, without fill, that reads the count, then
    ports are in state:, then the state. *)
Theorem extraports_summary (host : element) (hd : host_data) :
  parse_host host = Ok hd ->
  length (extraports hd) <= 1
  /\ (forall pe, find host "ports" = Some pe ->
        (forall e rest, findall pe "extraports" = e :: rest ->
           extraports hd = [ {| extra_state := get e "state";
                                extra_count := get e "count" |} ])
        /\ (findall pe "extraports" = [] -> extraports hd = []))
  /\ (find host "ports" = None -> ports hd = [] /\ extraports hd = [])
  /\ (forall doc doc', create_final_host_table doc hd = Ok doc' ->
        exists t front ers,
          doc' = (doc ++ [Table t; Paragraph []])%list
          /\ rows t = (front ++ ers)%list
          /\ length front = 5 + length (ports hd)
          /\ Forall2 shows_extraport (extraports hd) ers).
Proof.
  intros H. pose proof (parse_host_fields _ _ H) as (_ & _ & Hps & He).
  split; [|split; [|split]].
  - rewrite He. destruct (find host "ports") as [pe|]; [|simpl; lia].
    unfold parse_extraports. destruct (find pe "extraports"); simpl; lia.
  - intros pe Hpe. rewrite Hpe in He. unfold parse_extraports, find in He.
    split.
    + intros e rest E. now rewrite E in He.
    + intros E. now rewrite E in He.
  - intros Hn. rewrite Hn in He. split; [|exact He].
    unfold host_port_elements in Hps. rewrite Hn in Hps. now injection Hps.
  - intros doc doc' Hr. apply rendered_table in Hr as (prs & Hprs & ->).
    eexists _, (final_head_rows hd ++ map (for_cells set_cell_font) prs)%list, _.
    split; [reflexivity|]. split; [cbn [rows]; now rewrite <- app_assoc|].
    split.
    + rewrite length_app, length_map, (mapM_length _ _ _ Hprs). reflexivity.
    + apply summary_rows_show.
Qed.

Lemma extraports_summary_witness :
  parse_host Sample.full_host = Ok Sample.full_record
  /\ extraports Sample.full_record
     = [ {| extra_state := Some "filtered"; extra_count := Some "997" |} ]
  /\ exists t front ers,
      Sample.full_document = ([] ++ [Table t; Paragraph []])%list
      /\ rows t = (front ++ ers)%list
      /\ length front = 5 + length (ports Sample.full_record)
      /\ Forall2 shows_extraport (extraports Sample.full_record) ers.
Proof.
  split; [reflexivity|]. split; [reflexivity|].
  exact (proj2 (proj2 (proj2 (extraports_summary Sample.full_host
                                                 Sample.full_record eq_refl)))
               [] Sample.full_document eq_refl).
Defined.

(** ** Fields that may be None *)

Lemma port_row_product_version (pd : port_data) (r : row) :
  port_row table6 pd = Ok r ->
  exists c0 c1 c2 c3 c4 c5,
    r = [c0; c1; c2; c3; c4; c5]
    /\ cell_text c4 = match product pd with Some s => s | None => "" end
    /\ cell_text c5 = match version pd with Some s => s | None => "" end.
Proof.
  rewrite port_row_eq.
  destruct pd as [[a|] [b|] [c|] [d|] pr v]; try discriminate.
  intros [= <-]. do 6 eexists. split; [reflexivity|].
  destruct pr, v; split; reflexivity.
Qed.

(** C3, as the code has it.  The address and hostnames of a host record
    are strings, empty when no ipv4 or ipv6 address child and no hostnames
    element is there.  For a port without a service element, service,
    product and version are the empty string; for a port with a service
    element each of them is the name, product or version attribute of that
    element, None when the attribute is absent.  The renderer tests
    product and version against None and writes the empty string for
    them. *)
Theorem record_fields (host : element) (hd : host_data) :
  parse_host host = Ok hd ->
  (ip_addresses host = [] -> address hd = "")
  /\ (find host "hostnames" = None -> hostnames hd = "")
  /\ Forall2
       (fun port pd =>
          (find port "service" = None ->
             service pd = Some "" /\ product pd = Some "" /\ version pd = Some "")
          /\ (forall s, find port "service" = Some s ->
                service pd = get s "name"
                /\ product pd = get s "product"
                /\ version pd = get s "version")
          /\ (forall r, port_row table6 pd = Ok r ->
                exists c0 c1 c2 c3 c4 c5,
                  r = [c0; c1; c2; c3; c4; c5]
                  /\ cell_text c4 = match product pd with Some s => s | None => "" end
                  /\ cell_text c5 = match version pd with Some s => s | None => "" end))
       (host_port_elements host) (ports hd).
Proof.
  intros H. apply parse_host_fields in H as (Ha & Hn & Hps & _).
  split; [|split].
  - intros E. rewrite Ha, host_address_join, E. reflexivity.
  - intros E. rewrite Hn. unfold host_hostnames. now rewrite E.
  - apply mapM_Forall2 in Hps.
    eapply Forall2_impl; [|exact Hps].
    intros port pd Hp. cbv beta in Hp.
    destruct (find port "state") as [st|] eqn:Est;
      [|now rewrite parse_port_no_state in Hp].
    rewrite (parse_port_state _ _ Est) in Hp. injection Hp as <-.
    cbn [service product version]. unfold service_field.
    split; [|split].
    + now intros ->.
    + now intros s ->.
    + apply port_row_product_version.
Qed.

Lemma record_fields_witness :
  parse_host Sample.full_host = Ok Sample.full_record
  /\ Forall2
       (fun port pd =>
          (find port "service" = None ->
             service pd = Some "" /\ product pd = Some "" /\ version pd = Some "")
          /\ (forall s, find port "service" = Some s ->
                service pd = get s "name"
                /\ product pd = get s "product"
                /\ version pd = get s "version")
          /\ (forall r, port_row table6 pd = Ok r ->
                exists c0 c1 c2 c3 c4 c5,
                  r = [c0; c1; c2; c3; c4; c5]
                  /\ cell_text c4 = match product pd with Some s => s | None => "" end
                  /\ cell_text c5 = match version pd with Some s => s | None => "" end))
       (host_port_elements Sample.full_host) (ports Sample.full_record).
Proof.
  split; [reflexivity|].
  exact (proj2 (proj2 (record_fields Sample.full_host Sample.full_record eq_refl))).
Defined.

(** C3, as the spec has it, fails on the sample port: its service element
    has no product and no version attribute, and the port record holds
    None for both, not the empty string. *)
Lemma record_fields_not_always_strings :
  exists pd,
    parse_port Sample.http_port = Ok pd
    /\ product pd = None /\ version pd = None
    /\ product pd <> Some "" /\ version pd <> Some "".
Proof.
  eexists. split; [reflexivity|]. repeat split; discriminate.
Qed.

(** ** The main script *)

Lemma parse_nmap_xml_raise (root host port : element) :
  In host (findall_descendants root "host") ->
  In port (host_port_elements host) ->
  find port "state" = None ->
  parse_nmap_xml root = Raise AttributeError.
Proof.
  intros Hh Hp Hs. rewrite parse_nmap_xml_mapM.
  apply mapM_raise.
  - intros x e' He. now apply parse_host_raise in He.
  - apply Exists_exists. exists host. split; [exact Hh|].
    rewrite parse_host_ports.
    rewrite (mapM_raise parse_port AttributeError); [reflexivity | |].
    + intros x e' He. now apply parse_port_raise in He.
    + apply Exists_exists. exists port. split; [exact Hp|].
      now apply parse_port_no_state.
Qed.

Section MainProperties.

Variable ET_parse : input_file -> result element.
Variable doc_save : string -> document -> result unit.

(** C6, as the code has it.  When lxml cannot parse the input, and when
    the parsed tree has a port element without a state child directly
    under the first ports child of one of its host elements, the run ends
    without saving a document and not with exit status 0; if the two
    header lines were accepted it ends with the uncaught exception: the
    parser's own, or AttributeError. *)
Theorem fatal_input (file : input_file) (output_file : string) :
  (exists e, ET_parse file = Raise e)
  \/ (exists root host port,
        ET_parse file = Ok root
        /\ In host (findall_descendants root "host")
        /\ In port (host_port_elements host)
        /\ find port "state" = None) ->
  let r := main ET_parse doc_save file output_file in
  saved r = None
  /\ status r <> Exit 0
  /\ (snd (check_xml_file file) = true ->
      (forall e, ET_parse file = Raise e -> status r = Uncaught e)
      /\ (forall root, ET_parse file = Ok root ->
                       status r = Uncaught AttributeError)).
Proof.
  intros H r. subst r. unfold main.
  destruct (check_xml_file file) as [printed valid]. cbn [snd].
  destruct valid; cbn [negb].
  - assert (B : (exists e, build_document ET_parse file = Raise e)
                /\ (forall e, ET_parse file = Raise e ->
                              build_document ET_parse file = Raise e)
                /\ (forall root, ET_parse file = Ok root ->
                                 build_document ET_parse file
                                 = Raise AttributeError)).
    { unfold build_document. destruct H as [(e & He) | (root & host & port & Hr & Hh & Hp & Hs)].
      - rewrite He. cbn [bind]. split; [eauto|]. split; [intros ? [= ->]; reflexivity | discriminate].
      - rewrite Hr. cbn [bind].
        rewrite (parse_nmap_xml_raise _ _ _ Hh Hp Hs). cbn [bind].
        split; [eauto|]. split; [discriminate | reflexivity]. }
    destruct B as ((e & He) & B1 & B2). rewrite He. cbn [saved status].
    split; [reflexivity|]. split; [discriminate|]. intros _. split.
    + intros e' He'. rewrite (B1 _ He') in He. congruence.
    + intros root Hr. rewrite (B2 _ Hr) in He. congruence.
  - cbn [saved status]. split; [reflexivity|]. split; discriminate.
Qed.

(** C8. When the first line of the input lacks the XML declaration, or
    its second line lacks the nmaprun DOCTYPE, or the file cannot be
    read, the run prints the three fixed lines Invalid XML file., Please
    generate a valid Nmap file with a command like: and the scan command
    (after the error line of an unreadable file, and nothing else), ends
    with exit status 1 and saves no document. *)
Theorem invalid_header (file : input_file) (output_file : string) :
  (forall text, file = Contents text ->
     Py.contains xml_declaration (first_line text) = false
     \/ Py.contains doctype (second_line text) = false) ->
  let r := main ET_parse doc_save file output_file in
  status r = Exit 1
  /\ saved r = None
  /\ (forall text, file = Contents text ->
        stdout r
        = ["Invalid XML file.";
           "Please generate a valid Nmap file with a command like:";
           "sudo nmap -Pn -sC -sV -oX targets -iL targets.txt"])
  /\ (forall e, file = Unreadable e ->
        stdout r
        = ["Error reading file: " ++ e;
           "Invalid XML file.";
           "Please generate a valid Nmap file with a command like:";
           "sudo nmap -Pn -sC -sV -oX targets -iL targets.txt"]).
Proof.
  intros H r. subst r. unfold main, check_xml_file.
  destruct file as [text|e].
  - destruct (H text eq_refl) as [E|E]; rewrite E, ?andb_false_r;
      cbn [andb negb status saved stdout app].
    all: split; [reflexivity|]; split; [reflexivity|];
      split; [reflexivity | discriminate].
  - cbn [negb status saved stdout].
    split; [reflexivity|]. split; [reflexivity|].
    split; [discriminate | now intros ? [= ->]].
Qed.

End MainProperties.

Lemma fatal_input_witness :
  snd (check_xml_file (Contents Sample.header_text)) = true
  /\ In Sample.broken_host (findall_descendants Sample.broken_root "host")
  /\ In Sample.stateless_port (host_port_elements Sample.broken_host)
  /\ find Sample.stateless_port "state" = None
  /\ saved (main (fun _ => Ok Sample.broken_root) Sample.writes
                 (Contents Sample.header_text) "processed_hosts") = None
  /\ status (main (fun _ => Ok Sample.broken_root) Sample.writes
                  (Contents Sample.header_text) "processed_hosts") <> Exit 0.
Proof.
  assert (H1 : In Sample.broken_host
                  (findall_descendants Sample.broken_root "host"))
    by (simpl; tauto).
  assert (H2 : In Sample.stateless_port (host_port_elements Sample.broken_host))
    by (simpl; tauto).
  split; [reflexivity|]. split; [exact H1|]. split; [exact H2|].
  split; [reflexivity|].
  destruct (fatal_input (fun _ => Ok Sample.broken_root) Sample.writes
                        (Contents Sample.header_text) "processed_hosts")
    as (S1 & S2 & _).
  - right. exists Sample.broken_root, Sample.broken_host, Sample.stateless_port.
    repeat split; assumption.
  - split; assumption.
Defined.

(** C6, as the spec has it, fails on the sample tree whose host has a
    second ports element: the port element in it has no state child, yet
    it is never read, and the run ends with exit status 0 and a saved
    document. *)
Lemma fatal_input_not_for_every_port :
  In Sample.stateless_port (descendants Sample.late_port_root)
  /\ tag Sample.stateless_port = "port"
  /\ find Sample.stateless_port "state" = None
  /\ check_xml_file (Contents Sample.header_text) = ([], true)
  /\ exists doc,
      main (fun _ => Ok Sample.late_port_root) Sample.writes
           (Contents Sample.header_text) "processed_hosts"
      = {| stdout := []; status := Exit 0;
           saved := Some ("processed_hosts.docx", doc) |}
      /\ length (tables doc) = 1.
Proof.
  split; [simpl; tauto|]. split; [reflexivity|]. split; [reflexivity|].
  split; [reflexivity|]. eexists. split; reflexivity.
Qed.

Lemma invalid_header_witness :
  Py.contains doctype (second_line xml_declaration) = false
  /\ status (main (fun _ => Raise XMLSyntaxError) Sample.writes
                  (Contents xml_declaration) "out") = Exit 1
  /\ saved (main (fun _ => Raise XMLSyntaxError) Sample.writes
                 (Contents xml_declaration) "out") = None
  /\ stdout (main (fun _ => Raise XMLSyntaxError) Sample.writes
                  (Contents xml_declaration) "out")
     = ["Invalid XML file.";
        "Please generate a valid Nmap file with a command like:";
        "sudo nmap -Pn -sC -sV -oX targets -iL targets.txt"].
Proof.
  split; [reflexivity|].
  destruct (invalid_header (fun _ => Raise XMLSyntaxError) Sample.writes
                           (Contents xml_declaration) "out")
    as (S1 & S2 & S3 & _).
  - intros text [= <-]. right. reflexivity.
  - split; [exact S1|]. split; [exact S2|]. exact (S3 _ eq_refl).
Defined.

(** * Further properties *)

(** ** The extractor as a whole *)

Lemma find_first (t : string) (a : list (string * string))
      (before after : list element) (e : element) (name : string) :
  tag e = name ->
  Forall (fun c => tag c <> name) before ->
  find (Element t a (before ++ e :: after)) name = Some e.
Proof.
  intros He Hb. unfold find, findall. cbn [children].
  induction Hb as [|c l Hc _ IH]; cbn [app filter].
  - rewrite (proj2 (String.eqb_eq _ _) He). reflexivity.
  - rewrite (proj2 (String.eqb_neq _ _) Hc). exact IH.
Qed.

(** X1. A successful extraction returns exactly one host record per host
    element of the tree, in document order; each record is the one of its
    host element, and a host without a ports element still gets its
    record, with no port and no summary. *)
Theorem host_records_in_order (root : element) (hosts : list host_data) :
  parse_nmap_xml root = Ok hosts ->
  length hosts = length (findall_descendants root "host")
  /\ Forall2 (fun host hd =>
                parse_host host = Ok hd
                /\ address hd = host_address host
                /\ hostnames hd = host_hostnames host
                /\ (find host "ports" = None ->
                    ports hd = [] /\ extraports hd = []))
             (findall_descendants root "host") hosts.
Proof.
  rewrite parse_nmap_xml_mapM. intros H.
  split; [exact (mapM_length _ _ _ H)|].
  apply mapM_Forall2 in H.
  eapply Forall2_impl; [|exact H].
  intros host hd Hh. cbv beta in Hh. split; [exact Hh|].
  destruct (parse_host_fields _ _ Hh) as (Ha & Hn & Hp & He).
  split; [exact Ha|]. split; [exact Hn|].
  intros E. rewrite E in He. split; [|exact He].
  unfold host_port_elements in Hp. rewrite E in Hp. now injection Hp.
Qed.

Lemma host_records_in_order_witness :
  parse_nmap_xml Sample.minimal_root = Ok [Sample.minimal_record]
  /\ length [Sample.minimal_record]
     = length (findall_descendants Sample.minimal_root "host").
Proof.
  split; [reflexivity|].
  exact (proj1 (host_records_in_order Sample.minimal_root
                                      [Sample.minimal_record] eq_refl)).
Defined.

(** X2. The extraction of a tree succeeds exactly when every port element
    under the ports element of every host has a state child; when it
    fails, the exception is AttributeError. *)
Theorem extraction_succeeds_iff (root : element) :
  ((exists hosts, parse_nmap_xml root = Ok hosts) <->
   (forall host port,
      In host (findall_descendants root "host") ->
      In port (host_port_elements host) ->
      find port "state" <> None))
  /\ (forall e, parse_nmap_xml root = Raise e -> e = AttributeError).
Proof.
  split; [split|].
  - intros (hosts & H) host port Hh Hp Hs.
    rewrite (parse_nmap_xml_raise _ _ _ Hh Hp Hs) in H. discriminate.
  - intros H. rewrite parse_nmap_xml_mapM. apply mapM_total.
    apply Forall_forall. intros host Hh. apply parse_host_total.
    apply Forall_forall. intros port Hp. now apply (H host).
  - rewrite parse_nmap_xml_mapM. intros e H.
    apply mapM_raise_inv, Exists_exists in H as (host & _ & H).
    now apply parse_host_raise in H.
Qed.

(** X3. The port records of a host are as many as the port elements under
    its ports element and follow their order, none dropped and none
    merged; a record takes portid and protocol from the port element and
    state from the state attribute of its state child. *)
Theorem port_records_in_order (host : element) (hd : host_data) :
  parse_host host = Ok hd ->
  length (ports hd) = length (host_port_elements host)
  /\ Forall2 (fun port pd =>
                portid pd = get port "portid"
                /\ protocol pd = get port "protocol"
                /\ exists st, find port "state" = Some st
                              /\ state pd = get st "state")
             (host_port_elements host) (ports hd).
Proof.
  intros H. apply parse_host_fields in H as (_ & _ & Hp & _).
  split; [exact (mapM_length _ _ _ Hp)|].
  apply mapM_Forall2 in Hp.
  eapply Forall2_impl; [|exact Hp].
  intros port pd E. cbv beta in E.
  destruct (find port "state") as [st|] eqn:Est;
    [|now rewrite parse_port_no_state in E].
  rewrite (parse_port_state _ _ Est) in E. injection E as <-.
  cbn [portid protocol state]. eauto.
Qed.

Lemma port_records_in_order_witness :
  parse_host Sample.full_host = Ok Sample.full_record
  /\ length (ports Sample.full_record)
     = length (host_port_elements Sample.full_host).
Proof.
  split; [reflexivity|].
  exact (proj1 (port_records_in_order Sample.full_host Sample.full_record
                                      eq_refl)).
Defined.

(** X4. Only the first ports child of a host is read: the port records
    and the summary come from it, whatever follows it among the children
    of the host, so a later ports element adds nothing and a port without
    state inside it does not make the extraction fail. *)
Theorem first_ports_element_only
        (t : string) (a : list (string * string))
        (before after : list element) (pe : element) :
  tag pe = "ports" ->
  Forall (fun c => tag c <> "ports") before ->
  let host := Element t a (before ++ pe :: after) in
  host_port_elements host = findall pe "port"
  /\ parse_host host
     = (ps <- mapM parse_port (findall pe "port") ;;
        Ok {| address := host_address host;
              hostnames := host_hostnames host;
              ports := ps;
              extraports := parse_extraports pe |}).
Proof.
  intros Hpe Hb host.
  assert (F : find host "ports" = Some pe) by now apply find_first.
  split.
  - unfold host_port_elements. now rewrite F.
  - rewrite parse_host_ports. unfold host_port_elements. now rewrite F.
Qed.

Lemma first_ports_element_only_witness :
  parse_host
    (Element "host" []
       ([Element "status" [("state", "up")] []]
        ++ Element "ports" [] [Sample.bare_port]
        :: [Element "ports" [] [Sample.stateless_port]]))
  = Ok {| address := ""; hostnames := "";
          ports := [ {| portid := Some "22"; protocol := Some "tcp";
                        state := Some "closed"; service := Some "";
                        product := Some ""; version := Some "" |} ];
          extraports := [] |}.
Proof.
  rewrite (proj2 (first_ports_element_only
                    "host" [] [Element "status" [("state", "up")] []]
                    [Element "ports" [] [Sample.stateless_port]]
                    (Element "ports" [] [Sample.bare_port]) eq_refl
                    ltac:(repeat constructor; discriminate))).
  reflexivity.
Defined.

(** ** The table as a whole *)

Lemma styled_state_color (st : option string) : styled None [state_color st].
Proof.
  right. split; [reflexivity|]. unfold state_color.
  destruct st as [s|]; [destruct (String.eqb s "open")|]; auto.
Qed.

Lemma port_row_finished (pd : port_data) (r : row) :
  port_row table6 pd = Ok r -> finished_row (for_cells set_cell_font r).
Proof.
  rewrite port_row_eq.
  destruct pd as [[a|] [b|] [c|] [d|] pr v]; try discriminate.
  intros [= <-]. right.
  exists [a; b; c; d; Py.fmt (str_or_empty pr); Py.fmt (str_or_empty v)],
    None, [state_color (Some c)].
  split; [reflexivity|]. split; [reflexivity|]. apply styled_state_color.
Qed.

Lemma head_rows_finished (host : host_data) :
  Forall finished_row (final_head_rows host).
Proof.
  unfold final_head_rows.
  repeat (apply Forall_cons; [|]); [| | | | |apply Forall_nil].
  - left. exists "Address", (Some "FFFFFF"), ["E94347"]. split; [reflexivity|]. now left.
  - left. exists (address host), None, []. split; [reflexivity|]. right. auto.
  - left. exists "Hostnames", (Some "FFFFFF"), ["E94347"]. split; [reflexivity|]. now left.
  - left. exists (hostnames host), None, []. split; [reflexivity|]. right. auto.
  - right. exists headers, (Some "FFFFFF"), ["E94347"].
    split; [reflexivity|]. split; [reflexivity|]. now left.
Qed.

(** The table of a host, by its frame and the shape of its rows. *)
Lemma rendered_rows_finished (doc doc' : document) (host : host_data) :
  create_final_host_table doc host = Ok doc' ->
  exists t,
    doc' = (doc ++ [Table t; Paragraph []])%list
    /\ cols t = 6 /\ style t = Some "Table Grid"
    /\ length (rows t) = 5 + length (ports host) + length (extraports host)
    /\ Forall finished_row (rows t).
Proof.
  intros H. apply rendered_table in H as (prs & Hprs & ->).
  eexists. split; [reflexivity|]. split; [reflexivity|].
  split; [reflexivity|]. cbn [rows]. split.
  - rewrite !length_app, !length_map, (mapM_length _ _ _ Hprs). reflexivity.
  - apply Forall_app. split; [apply head_rows_finished|].
    apply Forall_app. split.
    + apply mapM_Forall2 in Hprs. clear -Hprs.
      induction Hprs as [|pd r l l' Hr _ IH]; simpl; constructor; [|exact IH].
      now apply port_row_finished with pd.
    + apply Forall_forall. intros r Hr.
      apply in_map_iff in Hr as (ep & <- & _).
      left. exists (extraport_text ep), None, []. split; [reflexivity|].
      right. auto.
Qed.

Lemma finished_row_cells (r : row) :
  finished_row r ->
  row_width r = 6
  /\ (length r = 1 \/ length r = 6)
  /\ Forall (fun c =>
               exists text rgb fills span,
                 c = final_cell span text rgb fills /\ styled rgb fills) r.
Proof.
  intros [(text & rgb & fills & -> & S) | (texts & rgb & fills & -> & L & S)].
  - split; [reflexivity|]. split; [now left|].
    repeat constructor. now exists text, rgb, fills, 6.
  - split; [|split].
    + unfold row_width. rewrite map_map. cbn [grid_span final_cell text_cell].
      rewrite <- L. clear. induction texts; simpl; congruence.
    + right. now rewrite length_map.
    + apply Forall_forall. intros c Hc. apply in_map_iff in Hc as (text & <- & _).
      now exists text, rgb, fills, 1.
Qed.

(** X5. A rendered host adds to the document exactly one table and one
    empty paragraph after what was there; the table has 6 columns, the
    style Table Grid and 5 rows plus one per port record plus one per
    extraports summary. *)
Theorem table_frame (doc doc' : document) (host : host_data) :
  create_final_host_table doc host = Ok doc' ->
  exists t,
    doc' = (doc ++ [Table t; Paragraph []])%list
    /\ cols t = 6 /\ style t = Some "Table Grid"
    /\ length (rows t) = 5 + length (ports host) + length (extraports host).
Proof.
  intros H. apply rendered_rows_finished in H as (t & H1 & H2 & H3 & H4 & _).
  now exists t.
Qed.

Lemma table_frame_witness :
  exists t,
    Sample.full_document = ([] ++ [Table t; Paragraph []])%list
    /\ cols t = 6 /\ style t = Some "Table Grid"
    /\ length (rows t)
       = 5 + length (ports Sample.full_record)
         + length (extraports Sample.full_record).
Proof.
  exact (table_frame [] Sample.full_document Sample.full_record eq_refl).
Defined.

(** X6. Every row of a rendered table covers exactly the 6 grid columns:
    it is either one cell merged over all of them or six cells of one
    column each. *)
Theorem rows_cover_six_columns (doc doc' : document) (host : host_data) :
  create_final_host_table doc host = Ok doc' ->
  exists t,
    doc' = (doc ++ [Table t; Paragraph []])%list
    /\ Forall (fun r => row_width r = 6
                        /\ ((exists c, r = [c] /\ grid_span c = 6)
                            \/ (length r = 6
                                /\ Forall (fun c => grid_span c = 1) r)))
              (rows t).
Proof.
  intros H. apply rendered_rows_finished in H as (t & -> & _ & _ & _ & F).
  exists t. split; [reflexivity|].
  eapply Forall_impl; [|exact F]. intros r Hr.
  split; [now apply finished_row_cells|].
  destruct Hr as [(text & rgb & fills & -> & _) | (texts & rgb & fills & -> & L & _)].
  - left. eexists. split; reflexivity.
  - right. split; [now rewrite length_map|].
    apply Forall_forall. intros c Hc. now apply in_map_iff in Hc as (text & <- & _).
Qed.

Lemma rows_cover_six_columns_witness :
  exists t,
    Sample.full_document = ([] ++ [Table t; Paragraph []])%list
    /\ Forall (fun r => row_width r = 6
                        /\ ((exists c, r = [c] /\ grid_span c = 6)
                            \/ (length r = 6
                                /\ Forall (fun c => grid_span c = 1) r)))
              (rows t).
Proof.
  exact (rows_cover_six_columns [] Sample.full_document Sample.full_record
                                eq_refl).
Defined.

(** X7. In a rendered table every cell holds exactly one paragraph with
    exactly one run, and that run has the font size 9 and the font name
    Calibri: the closing font loop reaches every cell, the merged ones
    and those of empty text included. *)
Theorem every_run_calibri_9 (doc doc' : document) (host : host_data) :
  create_final_host_table doc host = Ok doc' ->
  exists t,
    doc' = (doc ++ [Table t; Paragraph []])%list
    /\ Forall (Forall (fun c =>
                         exists r, paragraphs c = [[r]]
                                   /\ run_text r = cell_text c
                                   /\ font_size r = Some 9
                                   /\ font_name r = Some "Calibri"))
              (rows t).
Proof.
  intros H. apply rendered_rows_finished in H as (t & -> & _ & _ & _ & F).
  exists t. split; [reflexivity|].
  eapply Forall_impl; [|exact F]. intros r Hr.
  apply finished_row_cells in Hr as (_ & _ & Hc).
  eapply Forall_impl; [|exact Hc].
  intros c (text & rgb & fills & span & -> & _).
  eexists. repeat split.
Qed.

Lemma every_run_calibri_9_witness :
  exists t,
    Sample.minimal_document = ([] ++ [Table t; Paragraph []])%list
    /\ Forall (Forall (fun c =>
                         exists r, paragraphs c = [[r]]
                                   /\ run_text r = cell_text c
                                   /\ font_size r = Some 9
                                   /\ font_name r = Some "Calibri"))
              (rows t).
Proof.
  exact (every_run_calibri_9 [] Sample.minimal_document Sample.minimal_record
                             eq_refl).
Defined.

(** X8. In a rendered table a cell has at most one shading element, and
    its text is white (FFFFFF) exactly when its fill is the accent color
    E94347; every other cell, filled EAF1DD or F2DBDB or not filled, keeps
    the default text color. *)
Theorem white_text_iff_accent_fill (doc doc' : document) (host : host_data) :
  create_final_host_table doc host = Ok doc' ->
  exists t,
    doc' = (doc ++ [Table t; Paragraph []])%list
    /\ Forall (Forall (fun c =>
                         length (shd c) <= 1
                         /\ (shd c = ["E94347"] <->
                             runs_colored (Some "FFFFFF") c)
                         /\ (shd c <> ["E94347"] ->
                             runs_colored None c
                             /\ (shd c = [] \/ shd c = ["EAF1DD"]
                                 \/ shd c = ["F2DBDB"]))))
              (rows t).
Proof.
  intros H. apply rendered_rows_finished in H as (t & -> & _ & _ & _ & F).
  exists t. split; [reflexivity|].
  eapply Forall_impl; [|exact F]. intros r Hr.
  apply finished_row_cells in Hr as (_ & _ & Hc).
  eapply Forall_impl; [|exact Hc].
  intros c (text & rgb & fills & span & -> & S).
  cbn [shd final_cell text_cell].
  destruct S as [(-> & ->) | (-> & S)].
  - split; [simpl; lia|]. split.
    + split; [intros _; apply runs_colored_final | reflexivity].
    + congruence.
  - assert (N : fills <> ["E94347"])
      by (destruct S as [->|[->| ->]]; discriminate).
    split; [destruct S as [->|[->| ->]]; simpl; lia|]. split.
    + split; [congruence|].
      intros (_ & W). inversion W as [|x l Hx _]; subst. discriminate.
    + intros _. split; [apply runs_colored_final | exact S].
Qed.

Lemma white_text_iff_accent_fill_witness :
  exists t,
    Sample.full_document = ([] ++ [Table t; Paragraph []])%list
    /\ Forall (Forall (fun c =>
                         length (shd c) <= 1
                         /\ (shd c = ["E94347"] <->
                             runs_colored (Some "FFFFFF") c)
                         /\ (shd c <> ["E94347"] ->
                             runs_colored None c
                             /\ (shd c = [] \/ shd c = ["EAF1DD"]
                                 \/ shd c = ["F2DBDB"]))))
              (rows t).
Proof.
  exact (white_text_iff_accent_fill [] Sample.full_document Sample.full_record
                                    eq_refl).
Defined.

(** ** When rendering succeeds *)

Lemma port_row_writable (pd : port_data) :
  writable pd -> exists r, port_row table6 pd = Ok r.
Proof.
  intros (Ha & Hb & Hc & Hd). rewrite port_row_eq.
  destruct (portid pd); [|congruence].
  destruct (protocol pd); [|congruence].
  destruct (state pd); [|congruence].
  destruct (service pd); [|congruence].
  eauto.
Qed.

Lemma port_row_raise (pd : port_data) (e : exn) :
  port_row table6 pd = Raise e -> e = TypeError /\ ~ writable pd.
Proof.
  rewrite port_row_eq. unfold writable.
  destruct (portid pd), (protocol pd), (state pd), (service pd);
    try discriminate; intros [= <-]; (split; [reflexivity|]); tauto.
Qed.

Lemma create_final_host_table_total (doc : document) (host : host_data) :
  Forall writable (ports host) ->
  exists doc', create_final_host_table doc host = Ok doc'.
Proof.
  intros H. rewrite create_final_host_table_eq.
  destruct (mapM_total (port_row table6) (ports host)) as (prs & ->).
  - eapply Forall_impl; [|exact H]. exact port_row_writable.
  - cbn [bind]. eauto.
Qed.


Lemma create_final_host_table_raise (doc : document) (host : host_data) (e : exn) :
  create_final_host_table doc host = Raise e ->
  e = TypeError /\ Exists (fun pd => ~ writable pd) (ports host).
Proof.
  rewrite create_final_host_table_eq.
  destruct (mapM (port_row table6) (ports host)) as [prs|e'] eqn:E;
    cbn [bind]; [discriminate|].
  intros [= ->]. apply mapM_raise_inv, Exists_exists in E as (pd & Hin & Hpd).
  apply port_row_raise in Hpd as (-> & Hw).
  split; [reflexivity|]. apply Exists_exists. eauto.
Qed.

(** ** One table per host *)

Lemma create_final_host_table_appends (doc : document) (host : host_data) :
  create_final_host_table doc host
  = (d <- create_final_host_table [] host ;; Ok (doc ++ d)%list).
Proof.
  rewrite !create_final_host_table_eq.
  now destruct (mapM (port_row table6) (ports host)).
Qed.

Lemma create_final_host_table_fresh (host : host_data) (d : document) :
  create_final_host_table [] host = Ok d ->
  exists t, d = [Table t; Paragraph []].
Proof.
  intros H. apply rendered_table in H as (prs & _ & ->).
  eexists. reflexivity.
Qed.

Lemma tables_app (d1 d2 : document) :
  tables (d1 ++ d2)%list = (tables d1 ++ tables d2)%list.
Proof.
  induction d1 as [|[t|p] d1 IH]; simpl; [reflexivity | now rewrite IH | exact IH].
Qed.

Lemma tables_interleaved (ts : list table) :
  tables (flat_map (fun t => [Table t; Paragraph []]) ts) = ts.
Proof. induction ts as [|t ts IH]; simpl; congruence. Qed.

Lemma for_each_create_tables (hosts : list host_data) (doc0 doc : document) :
  for_each create_final_host_table hosts doc0 = Ok doc ->
  exists ts,
    doc = (doc0 ++ flat_map (fun t => [Table t; Paragraph []]) ts)%list
    /\ Forall2 (fun host t =>
                  create_final_host_table [] host = Ok [Table t; Paragraph []])
               hosts ts
    /\ tables doc = (tables doc0 ++ ts)%list
    /\ length ts = length hosts
    /\ length doc = length doc0 + 2 * length hosts.
Proof.
  revert doc0. induction hosts as [|host hosts IH]; intros doc0 H.
  - injection H as <-. exists []. simpl. rewrite !app_nil_r.
    repeat split; [constructor | lia].
  - cbn [for_each] in H. apply bind_ok in H as (doc1 & H1 & H).
    rewrite create_final_host_table_appends in H1.
    apply bind_ok in H1 as (d & Hd & H1). injection H1 as <-.
    destruct (create_final_host_table_fresh _ _ Hd) as (t & ->).
    destruct (IH _ H) as (ts & -> & F & T & L & N).
    exists (t :: ts). split; [now rewrite <- app_assoc|].
    split; [now constructor|].
    split.
    + rewrite T, tables_app, <- app_assoc. reflexivity.
    + split; [simpl; lia|].
      rewrite N, length_app. simpl. lia.
Qed.


(** X11. The loop over the host records appends, host by host and in
    their order, the table of the host and an empty paragraph: the
    document ends up with one table per host record, each the table the
    host would get in a fresh document, and with two blocks more per
    host; what was in the document before stays in front. *)
Theorem one_table_per_host (hosts : list host_data) (doc0 doc : document) :
  for_each create_final_host_table hosts doc0 = Ok doc ->
  exists ts,
    doc = (doc0 ++ flat_map (fun t => [Table t; Paragraph []]) ts)%list
    /\ Forall2 (fun host t =>
                  create_final_host_table [] host = Ok [Table t; Paragraph []])
               hosts ts
    /\ tables doc = (tables doc0 ++ ts)%list
    /\ length ts = length hosts
    /\ length doc = length doc0 + 2 * length hosts.
Proof.
  intros H.
  apply for_each_create_tables in H as (ts & H1 & H2 & H3 & H4 & H5).
  exists ts. repeat split; assumption.
Qed.

Lemma one_table_per_host_witness :
  exists ts,
    (Sample.minimal_document ++ Sample.full_document)%list
    = ([] ++ flat_map (fun t => [Table t; Paragraph []]) ts)%list
    /\ length ts = length [Sample.minimal_record; Sample.full_record].
Proof.
  destruct (one_table_per_host
              [Sample.minimal_record; Sample.full_record] []
              (Sample.minimal_document ++ Sample.full_document)%list eq_refl)
    as (ts & H1 & _ & _ & H2 & _).
  now exists ts.
Defined.

(** ** The header check *)

Lemma no_newline_app (s t : string) :
  no_newline (s ++ t) = no_newline s && no_newline t.
Proof.
  induction s as [|c s IH]; simpl; [reflexivity|].
  rewrite IH. now rewrite !andb_assoc.
Qed.

Lemma universal_newlines_app (s t : string) :
  no_newline s = true ->
  Py.universal_newlines (s ++ t) = s ++ Py.universal_newlines t.
Proof.
  induction s as [|c s IH]; [reflexivity|].
  cbn [no_newline append]. intros H.
  apply andb_prop in H as (H & Hs). apply andb_prop in H as (Hc & _).
  apply negb_true_iff in Hc.
  cbn [Py.universal_newlines]. rewrite Hc, (IH Hs). reflexivity.
Qed.

Lemma universal_newlines_end (e t : string) :
  line_end e ->
  Py.universal_newlines (e ++ t) = String Py.LF (Py.universal_newlines t).
Proof. intros [-> | ->]; reflexivity. Qed.

Lemma readline_line (s t : string) :
  no_newline s = true ->
  Py.readline (s ++ String Py.LF t) = (s ++ String Py.LF "", t).
Proof.
  induction s as [|c s IH]; [reflexivity|].
  cbn [no_newline append]. intros H.
  apply andb_prop in H as (H & Hs). apply andb_prop in H as (_ & Hc).
  apply negb_true_iff in Hc.
  cbn [Py.readline]. rewrite Hc, (IH Hs). reflexivity.
Qed.

Lemma readline_last_line (s : string) :
  no_newline s = true -> Py.readline s = (s, "").
Proof.
  induction s as [|c s IH]; [reflexivity|].
  cbn [no_newline]. intros H.
  apply andb_prop in H as (H & Hs). apply andb_prop in H as (_ & Hc).
  apply negb_true_iff in Hc.
  cbn [Py.readline]. rewrite Hc, (IH Hs). reflexivity.
Qed.

(** X13. A file without any line break, the empty file included, is
    never accepted: its second line is empty, so the DOCTYPE test fails
    whatever the only line holds, and nothing is printed by the check. *)
Theorem one_line_file_rejected (text : string) :
  no_newline text = true ->
  second_line text = "" /\ check_xml_file (Contents text) = ([], false).
Proof.
  intros H.
  assert (S : second_line text = "").
  { unfold second_line.
    rewrite <- (append_nil_r text), universal_newlines_app by exact H.
    cbn [Py.universal_newlines]. rewrite append_nil_r.
    now rewrite (readline_last_line _ H). }
  split; [exact S|].
  unfold check_xml_file. rewrite S.
  replace (Py.contains doctype "") with false by reflexivity.
  now rewrite andb_false_r.
Qed.

Lemma one_line_file_rejected_witness :
  second_line (xml_declaration ++ doctype) = ""
  /\ check_xml_file (Contents (xml_declaration ++ doctype)) = ([], false).
Proof.
  exact (one_line_file_rejected (xml_declaration ++ doctype) eq_refl).
Defined.

(** X14. A file is accepted when its first line holds the XML declaration
    and its second line the nmaprun DOCTYPE, each anywhere in its line,
    whether the lines end with a line feed or with carriage return and
    line feed, and whether the second line is followed by more lines or
    ends the file; nothing is printed. *)
Theorem two_header_lines_accepted (a b c d e1 tail : string) :
  no_newline a = true -> no_newline b = true ->
  no_newline c = true -> no_newline d = true ->
  line_end e1 ->
  (tail = "" \/ exists e2 rest, line_end e2 /\ tail = e2 ++ rest) ->
  check_xml_file
    (Contents ((a ++ xml_declaration ++ b) ++ e1
               ++ (c ++ doctype ++ d) ++ tail))
  = ([], true).
Proof.
  intros Ha Hb Hc Hd He Ht.
  set (l1 := a ++ xml_declaration ++ b). set (l2 := c ++ doctype ++ d).
  assert (N1 : no_newline l1 = true).
  { subst l1. rewrite !no_newline_app, Ha, Hb. reflexivity. }
  assert (N2 : no_newline l2 = true).
  { subst l2. rewrite !no_newline_app, Hc, Hd. reflexivity. }
  assert (U : exists rest,
             Py.universal_newlines (l1 ++ e1 ++ l2 ++ tail)
             = l1 ++ String Py.LF rest
             /\ fst (Py.readline rest) = l2
                \/ Py.universal_newlines (l1 ++ e1 ++ l2 ++ tail)
                   = l1 ++ String Py.LF rest
                   /\ fst (Py.readline rest) = l2 ++ String Py.LF "").
  { rewrite (universal_newlines_app _ _ N1), (universal_newlines_end _ _ He),
      (universal_newlines_app _ _ N2).
    destruct Ht as [-> | (e2 & rest & He2 & ->)].
    - exists (l2 ++ ""). left. split; [reflexivity|].
      rewrite append_nil_r. now rewrite (readline_last_line _ N2).
    - rewrite (universal_newlines_end _ _ He2).
      eexists. right. split; [reflexivity|].
      now rewrite (readline_line _ _ N2). }
  unfold check_xml_file, first_line, second_line.
  destruct U as (rest & [(-> & R) | (-> & R)]);
    rewrite (readline_line _ _ N1); cbn [fst snd]; rewrite R;
    subst l1 l2; rewrite !append_assoc.
  - rewrite contains_app, (contains_app doctype c d). reflexivity.
  - rewrite contains_app, (contains_app doctype c (d ++ String Py.LF "")).
    reflexivity.
Qed.

Lemma two_header_lines_accepted_witness :
  check_xml_file
    (Contents (("" ++ xml_declaration ++ "") ++ String Py.CR (String Py.LF "")
               ++ ("" ++ doctype ++ "<!-- scan -->") ++ ""))
  = ([], true).
Proof.
  apply (two_header_lines_accepted "" "" "" "<!-- scan -->"
           (String Py.CR (String Py.LF "")) "");
    try reflexivity.
  - now right.
  - now left.
Defined.

(** ** The output name *)

Lemma endswith_here (s : string) : Py.endswith s s = true.
Proof. destruct s; cbn [Py.endswith]; now rewrite String.eqb_refl. Qed.

Lemma endswith_app (s suffix : string) : Py.endswith (s ++ suffix) suffix = true.
Proof.
  induction s as [|c s IH].
  - apply endswith_here.
  - cbn [append Py.endswith]. rewrite IH. apply orb_true_r.
Qed.

Lemma endswith_split (s suffix : string) :
  Py.endswith s suffix = true -> exists stem, s = stem ++ suffix.
Proof.
  induction s as [|c s IH]; cbn [Py.endswith]; intros H.
  - rewrite orb_false_r in H. apply String.eqb_eq in H. now exists "".
  - apply orb_prop in H as [H|H].
    + apply String.eqb_eq in H. now exists "".
    + destruct (IH H) as (stem & ->). now exists (String c stem).
Qed.

(** X15. A name that already ends with .docx is the output name as it
    is, and any other name gets .docx appended, whatever else it holds;
    so the output name always ends with .docx, and applying the rule
    twice changes nothing more. *)
Theorem output_name_docx (output_file : string) :
  (forall stem, output_file = stem ++ ".docx" ->
                output_name output_file = output_file)
  /\ ((forall stem, output_file <> stem ++ ".docx") ->
      output_name output_file = output_file ++ ".docx")
  /\ Py.endswith (output_name output_file) ".docx" = true
  /\ (exists stem, output_name output_file = stem ++ ".docx"
                   /\ (output_file = stem \/ output_file = stem ++ ".docx"))
  /\ (Py.endswith output_file ".docx" = false ->
      output_name output_file = output_file ++ ".docx")
  /\ output_name (output_name output_file) = output_name output_file.
Proof.
  assert (E : Py.endswith (output_name output_file) ".docx" = true).
  { unfold output_name.
    destruct (Py.endswith output_file ".docx") eqn:H; [exact H|].
    apply endswith_app. }
  split; [|split; [|split; [exact E|split; [|split]]]].
  - intros stem ->. unfold output_name. now rewrite endswith_app.
  - intros N. unfold output_name.
    destruct (Py.endswith output_file ".docx") eqn:H; [|reflexivity].
    destruct (endswith_split _ _ H) as (stem & Hs). now destruct (N stem).
  - unfold output_name. destruct (Py.endswith output_file ".docx") eqn:H.
    + destruct (endswith_split _ _ H) as (stem & ->). exists stem. auto.
    + exists output_file. auto.
  - unfold output_name. now intros ->.
  - unfold output_name at 1. now rewrite E.
Qed.

Lemma output_name_docx_witness :
  output_name "scan.docx" = "scan.docx"
  /\ output_name "processed_hosts" = "processed_hosts.docx".
Proof.
  split.
  - exact (proj1 (output_name_docx "scan.docx") "scan" eq_refl).
  - exact (proj1 (proj2 (proj2 (proj2 (proj2
                    (output_name_docx "processed_hosts"))))) eq_refl).
Defined.

(** ** Runs that save a document *)

Lemma check_xml_file_valid (file : input_file) :
  snd (check_xml_file file) = true -> check_xml_file file = ([], true).
Proof.
  unfold check_xml_file. destruct file as [text|e]; [|discriminate].
  now destruct (_ && _).
Qed.

Lemma renderable_writable (port : element) (pd : port_data) :
  renderable_port port -> parse_port port = Ok pd -> writable pd.
Proof.
  intros ((st & Hst & Hs) & Ha & Hb & Hd) H.
  rewrite (parse_port_state _ _ Hst) in H. injection H as <-.
  repeat split; assumption.
Qed.

Lemma parse_host_writable (host : element) (hd : host_data) :
  Forall renderable_port (host_port_elements host) ->
  parse_host host = Ok hd -> Forall writable (ports hd).
Proof.
  intros R H. apply parse_host_fields in H as (_ & _ & Hp & _).
  apply mapM_Forall2 in Hp. revert R.
  induction Hp as [|port pd l l' H _ IH]; intros R; [constructor|].
  inversion R; subst. constructor; [now apply (renderable_writable port)|auto].
Qed.

Lemma for_each_create_total (hosts : list host_data) (doc0 : document) :
  Forall (fun hd => Forall writable (ports hd)) hosts ->
  exists doc, for_each create_final_host_table hosts doc0 = Ok doc.
Proof.
  intros H. revert doc0. induction H as [|hd hosts Hw _ IH]; intros doc0.
  - simpl. eauto.
  - cbn [for_each].
    destruct (create_final_host_table_total doc0 hd Hw) as (doc1 & ->).
    cbn [bind]. apply IH.
Qed.

Lemma build_document_tables (ET_parse : input_file -> result element)
      (file : input_file) (doc : document) :
  build_document ET_parse file = Ok doc ->
  exists root,
    ET_parse file = Ok root
    /\ length (tables doc) = length (findall_descendants root "host")
    /\ length doc = 2 * length (findall_descendants root "host").
Proof.
  unfold build_document. intros H.
  apply bind_ok in H as (root & Hr & H).
  apply bind_ok in H as (hosts & Hh & H).
  rewrite parse_nmap_xml_mapM in Hh. apply mapM_length in Hh.
  apply for_each_create_tables in H as (ts & _ & _ & T & L & N).
  exists root. split; [exact Hr|].
  rewrite T, N. simpl. lia.
Qed.

(** X16. A run ends with exit status 0 when the two header lines are
    accepted, lxml parses the file, every port element under the ports
    element of a host has its state child with a state, its portid and
    protocol and, if it has a service child, the name of the service, and
    the document can be written under the output name.  It prints nothing
    and saves one document, under the output name, with one table per
    host element of the tree.  When the write fails instead, the run ends
    with the exception of the write and nothing is saved. *)
Theorem successful_run (ET_parse : input_file -> result element)
        (doc_save : string -> document -> result unit)
        (file : input_file) (output_file : string) (root : element) :
  snd (check_xml_file file) = true ->
  ET_parse file = Ok root ->
  (forall host port,
     In host (findall_descendants root "host") ->
     In port (host_port_elements host) -> renderable_port port) ->
  exists doc,
    build_document ET_parse file = Ok doc
    /\ length (tables doc) = length (findall_descendants root "host")
    /\ length doc = 2 * length (findall_descendants root "host")
    /\ (doc_save (output_name output_file) doc = Ok tt ->
        main ET_parse doc_save file output_file
        = {| stdout := []; status := Exit 0;
             saved := Some (output_name output_file, doc) |})
    /\ (forall e, doc_save (output_name output_file) doc = Raise e ->
        main ET_parse doc_save file output_file
        = {| stdout := []; status := Uncaught e; saved := None |}).
Proof.
  intros Hv Hr Hp.
  assert (Hh : exists hosts, parse_nmap_xml root = Ok hosts
                             /\ Forall (fun hd => Forall writable (ports hd)) hosts).
  { rewrite parse_nmap_xml_mapM.
    induction (findall_descendants root "host") as [|host l IH].
    - exists []. split; [reflexivity | constructor].
    - destruct IH as (hosts & E & W); [intros h p Hin; apply Hp; now right|].
      assert (R : Forall renderable_port (host_port_elements host)).
      { apply Forall_forall. intros p Hin. apply (Hp host); [now left | exact Hin]. }
      destruct (parse_host_total host) as (hd & Hhd).
      { eapply Forall_impl; [|exact R].
        intros p ((st & -> & _) & _). discriminate. }
      exists (hd :: hosts). cbn [mapM]. rewrite Hhd, E. cbn [bind].
      split; [reflexivity|]. constructor; [|exact W].
      now apply (parse_host_writable host). }
  destruct Hh as (hosts & Hh & W).
  destruct (for_each_create_total hosts [] W) as (doc & Hd).
  assert (B : build_document ET_parse file = Ok doc).
  { unfold build_document. rewrite Hr. cbn [bind]. rewrite Hh. exact Hd. }
  exists doc. split; [exact B|].
  destruct (build_document_tables _ _ _ B) as (root' & Hr' & T & N).
  rewrite Hr in Hr'. injection Hr' as <-.
  split; [exact T|]. split; [exact N|].
  unfold main. rewrite (check_xml_file_valid _ Hv). cbn [negb]. rewrite B.
  split; intros; now rewrite H.
Qed.

Lemma successful_run_witness :
  exists doc,
    main (fun _ => Ok Sample.full_root_two) Sample.writes
         (Contents Sample.header_text) "report"
    = {| stdout := []; status := Exit 0; saved := Some ("report.docx", doc) |}
    /\ length (tables doc) = 2.
Proof.
  destruct (successful_run (fun _ => Ok Sample.full_root_two) Sample.writes
                           (Contents Sample.header_text) "report"
                           Sample.full_root_two eq_refl eq_refl)
    as (doc & _ & T & _ & M & _).
  - intros host port [<- | [<- | []]] Hp; simpl in Hp;
      repeat match goal with H : _ \/ _ |- _ => destruct H as [<- | H] end;
      try contradiction;
      (split; [eexists; split; [reflexivity | discriminate]|]);
      repeat split; discriminate.
  - exists doc. split; [exact (M eq_refl) | exact T].
Defined.

(** X17. Whenever a run saves a document, it ends with exit status 0 and
    has printed nothing, the path is the output name and ends with .docx,
    the write succeeded, lxml has parsed the file, and the document holds
    exactly one table per host element of the tree, two blocks per
    host. *)
Theorem saved_document (ET_parse : input_file -> result element)
        (doc_save : string -> document -> result unit)
        (file : input_file) (output_file path : string) (doc : document) :
  saved (main ET_parse doc_save file output_file) = Some (path, doc) ->
  status (main ET_parse doc_save file output_file) = Exit 0
  /\ stdout (main ET_parse doc_save file output_file) = []
  /\ path = output_name output_file
  /\ Py.endswith path ".docx" = true
  /\ snd (check_xml_file file) = true
  /\ doc_save path doc = Ok tt
  /\ exists root,
       ET_parse file = Ok root
       /\ length (tables doc) = length (findall_descendants root "host")
       /\ length doc = 2 * length (findall_descendants root "host").
Proof.
  unfold main.
  destruct (check_xml_file file) as [printed valid] eqn:C.
  destruct valid; cbn [negb]; [|discriminate].
  assert (P : printed = []).
  { pose proof (check_xml_file_valid file) as V. rewrite C in V.
    specialize (V eq_refl). now injection V. }
  destruct (build_document ET_parse file) as [d|e] eqn:B; [|discriminate].
  destruct (doc_save (output_name output_file) d) as [[]|e] eqn:W;
    [|discriminate].
  cbn [saved status stdout snd]. intros [= <- <-].
  split; [reflexivity|]. split; [exact P|]. split; [reflexivity|].
  split; [|split; [reflexivity | split; [exact W | now apply build_document_tables]]].
  unfold output_name.
  destruct (Py.endswith output_file ".docx") eqn:H; [exact H|].
  apply endswith_app.
Qed.

Lemma saved_document_witness :
  status (main (fun _ => Ok Sample.minimal_root) Sample.writes
               (Contents Sample.header_text) "hosts.docx") = Exit 0
  /\ length (tables Sample.minimal_document) = 1.
Proof.
  destruct (saved_document (fun _ => Ok Sample.minimal_root) Sample.writes
                           (Contents Sample.header_text) "hosts.docx"
                           "hosts.docx" Sample.minimal_document eq_refl)
    as (S & _ & _ & _ & _ & _ & root & R & T & _).
  injection R as <-. split; [exact S | exact T].
Defined.

(** ** Rendering an extracted host *)

Lemma renderable_iff_writable (port : element) (pd : port_data) :
  parse_port port = Ok pd -> (renderable_port port <-> writable pd).
Proof.
  intros H. split; [intros R; now apply (renderable_writable port)|].
  destruct (find port "state") as [st|] eqn:Est;
    [|now rewrite parse_port_no_state in H].
  rewrite (parse_port_state _ _ Est) in H. injection H as <-.
  intros (Ha & Hb & Hc & Hd). cbn [portid protocol state service] in *.
  split; [exists st; auto|]. auto.
Qed.

Lemma port_row_ok_writable (pd : port_data) (r : row) :
  port_row table6 pd = Ok r -> writable pd.
Proof.
  rewrite port_row_eq. unfold writable.
  destruct (portid pd), (protocol pd), (state pd), (service pd);
    try discriminate. intros _. repeat split; discriminate.
Qed.

(** What a port element lacks when it is not renderable. *)
Lemma not_renderable (port : element) (pd : port_data) :
  parse_port port = Ok pd -> ~ writable pd ->
  get port "portid" = None
  \/ get port "protocol" = None
  \/ (exists st, find port "state" = Some st /\ get st "state" = None)
  \/ (exists s, find port "service" = Some s /\ get s "name" = None).
Proof.
  intros H W.
  destruct (find port "state") as [st|] eqn:Est;
    [|now rewrite parse_port_no_state in H].
  rewrite (parse_port_state _ _ Est) in H. injection H as <-.
  unfold writable in W. cbn [portid protocol state service] in W.
  destruct (get port "portid"); [|now left].
  destruct (get port "protocol"); [|right; now left].
  destruct (get st "state") eqn:Es; [|right; right; left; eauto].
  right; right; right. unfold service_field in W.
  destruct (find port "service") as [sv|].
  - exists sv. split; [reflexivity|].
    destruct (get sv "name"); [|reflexivity].
    exfalso. apply W. repeat split; discriminate.
  - exfalso. apply W. repeat split; discriminate.
Qed.

(** X10. The record extracted from a host element of a parsed tree is
    rendered exactly when every port element under its ports element has
    a portid, a protocol, a state child with a state and, if it has a
    service child, the name of the service.  Otherwise rendering raises
    TypeError, and one of the port elements lacks one of these. *)
Theorem extracted_host_rendering (host : element) (hd : host_data)
        (doc : document) :
  parse_host host = Ok hd ->
  ((exists doc', create_final_host_table doc hd = Ok doc') <->
   Forall renderable_port (host_port_elements host))
  /\ (forall e, create_final_host_table doc hd = Raise e ->
      e = TypeError
      /\ Exists (fun port =>
                   get port "portid" = None
                   \/ get port "protocol" = None
                   \/ (exists st, find port "state" = Some st
                                  /\ get st "state" = None)
                   \/ (exists s, find port "service" = Some s
                                 /\ get s "name" = None))
                (host_port_elements host)).
Proof.
  intros H. pose proof (parse_host_fields _ _ H) as (_ & _ & Hp & _).
  apply mapM_Forall2 in Hp.
  split; [split|].
  - intros (doc' & Hd).
    apply rendered_table in Hd as (prs & Hprs & _).
    apply mapM_Forall2 in Hprs. clear H.
    revert prs Hprs. induction Hp as [|port pd l l' Hpp _ IH]; intros prs Hprs;
      [constructor|].
    inversion Hprs as [|? r ? prs' Hr Hrest]; subst.
    constructor; [|now apply (IH prs')].
    apply (renderable_iff_writable port pd Hpp).
    now apply port_row_ok_writable with r.
  - intros R. apply create_final_host_table_total.
    now apply (parse_host_writable host).
  - intros e He. apply create_final_host_table_raise in He as (-> & Ex).
    split; [reflexivity|].
    apply Exists_exists in Ex as (pd & Hin & W).
    clear H. induction Hp as [|port pd' l l' Hpp _ IH]; [contradiction|].
    destruct Hin as [-> | Hin].
    + left. now apply (not_renderable port pd).
    + right. auto.
Qed.

Lemma extracted_host_rendering_witness :
  (exists doc', create_final_host_table [] Sample.full_record = Ok doc') <->
  Forall renderable_port (host_port_elements Sample.full_host).
Proof.
  exact (proj1 (extracted_host_rendering Sample.full_host Sample.full_record
                                         [] eq_refl)).
Defined.

(** ** Namespace declarations *)

(** X18. nsdecls is defined exactly when every prefix it is given is a key
    of nsmap, that is the prefix w, and raises KeyError otherwise; it then
    gives one declaration of the main namespace per prefix, separated by
    spaces, and nothing for no prefix.  The shading markup is hence built
    for every color, with the color as the value of w:fill. *)
Theorem nsdecls_defined (prefixes : list string) :
  let decl := "xmlns:w=" ++ dquote
              ++ "http://schemas.openxmlformats.org/wordprocessingml/2006/main"
              ++ dquote in
  ((exists s, nsdecls prefixes = Some s) <->
   Forall (fun prefix => prefix = "w") prefixes)
  /\ (nsdecls prefixes = None <-> Exists (fun prefix => prefix <> "w") prefixes)
  /\ (forall s, nsdecls prefixes = Some s ->
        s = Py.join " " (map (fun _ => decl) prefixes))
  /\ (forall color,
        shading_markup color
        = Some ("<w:shd " ++ decl ++ " w:fill=" ++ dquote ++ color
                ++ dquote ++ "/>")).
Proof.
  intros decl.
  assert (D : forall prefix, (prefix = "w" /\ nsdecl prefix = Some decl)
                             \/ (prefix <> "w" /\ nsdecl prefix = None)).
  { intros prefix. unfold nsdecl, nsmap. cbn [lookup].
    destruct (String.eqb "w" prefix) eqn:E.
    - apply String.eqb_eq in E. subst prefix. left. split; reflexivity.
    - apply String.eqb_neq in E. right. split; [congruence | reflexivity]. }
  assert (L : (forall ds, nsdecl_list prefixes = Some ds ->
                 Forall (fun prefix => prefix = "w") prefixes
                 /\ ds = map (fun _ => decl) prefixes)
              /\ (nsdecl_list prefixes = None ->
                  Exists (fun prefix => prefix <> "w") prefixes)).
  { induction prefixes as [|prefix l (IH1 & IH2)]; cbn [nsdecl_list map].
    - split; [intros ds [= <-]; split; [constructor | reflexivity] | discriminate].
    - destruct (D prefix) as [(-> & ->) | (N & ->)].
      + destruct (nsdecl_list l) as [ds'|].
        * split; [|discriminate]. intros ds [= <-].
          destruct (IH1 ds' eq_refl) as (F & ->). split; [now constructor | reflexivity].
        * split; [discriminate|]. intros _. right. now apply IH2.
      + split; [discriminate|]. intros _. now left. }
  destruct L as (L1 & L2). unfold nsdecls.
  split; [split|split; [split|split]].
  - intros (s & H). destruct (nsdecl_list prefixes) as [ds|]; [|discriminate].
    now apply (L1 ds).
  - intros F. destruct (nsdecl_list prefixes) as [ds|]; [eauto|].
    exfalso. apply Exists_exists in L2 as (x & Hin & Hx); [|reflexivity].
    apply Hx. now apply (proj1 (Forall_forall _ _) F).
  - destruct (nsdecl_list prefixes) as [ds|]; [discriminate|]. intros _. now apply L2.
  - intros X. destruct (nsdecl_list prefixes) as [ds|]; [|reflexivity].
    exfalso. destruct (L1 ds eq_refl) as (F & _).
    apply Exists_exists in X as (x & Hin & Hx).
    apply Hx. now apply (proj1 (Forall_forall _ _) F).
  - intros s H. destruct (nsdecl_list prefixes) as [ds|]; [|discriminate].
    injection H as <-. destruct (L1 ds eq_refl) as (_ & ->). reflexivity.
  - intros color. reflexivity.
Qed.
